(** * MyFolio: risk controls, strategy gate and simulation engines

    A shallow embedding of the accounting core of the repository:

    - [core/risk_engine/drawdown_control.py]   (module [DrawdownController])
    - [core/risk_engine/exposure_limits.py]    (module [ExposureManager])
    - [core/risk_engine/position_sizing.py]    (module [PositionSizer])
    - [core/strategy_engine/base_strategy.py]  (module [BaseStrategy])
    - [core/execution_engine/paper_trader.py]  (module [PaperTrader])
    - [core/execution_engine/backtester.py]    (module [Backtester])

    Conventions of the embedding.

    - Python objects are records, methods are functions that take the
      object and return the updated object next to the returned value.
    - Python [float]s are the exact rationals [Qc]: every arithmetic
      identity below is an identity of exact arithmetic.  Where a
      statement is about exactness itself (the round trip of a buy and a
      sell), module [Binary64] repeats the arithmetic over binary64
      floats.  A division the code can meet with a zero divisor is an
      explicit [ZeroDivisionError] where a Python [float] is divided;
      where pandas or numpy would give nan or inf, the total division of
      [Qc] stands in.
      Python [int]s are [Z].
    - Python dicts keyed by symbol are [gmap string _]; append-only logs
      are lists with the newest record last.
    - A Python exception is an explicit [Raised] outcome that carries the
      state as the partially executed method left it.
    - External collaborators (quote feed, the clock, the analysers behind
      the strategy layers) are function arguments. *)

From Stdlib Require Import ZArith QArith Qcanon Qcabs Qround String Ascii.
From Stdlib Require Uint63 PrimFloat.
From stdpp Require Import base option list strings gmap fin_maps numbers.

#[local] Open Scope Qc_scope.

(** Decimal float literals are read as Python reads them: the nearest
    binary64 value. *)
#[local] Set Warnings "-inexact-float".

(** ** Numbers *)

Module Num.

(** A decimal literal such as 0.15 is [dec 15 100]. *)
Definition dec (n : Z) (d : positive) : Qc := Q2Qc (n # d).

Definition of_Z (n : Z) : Qc := Qc_of_Z n.

(** Python's [x > y], [x <= y] and [x == y] on numbers. *)
Definition gtb (x y : Qc) : bool := bool_decide (y < x).
Definition leb (x y : Qc) : bool := bool_decide (x ≤ y).
Definition geb (x y : Qc) : bool := bool_decide (y ≤ x).
Definition eqb (x y : Qc) : bool := bool_decide (x = y).

(** Python's builtin [min(a, b)]: the first argument wins unless the
    second is strictly smaller. *)
Definition min (a b : Qc) : Qc := if gtb a b then b else a.

(** Python's [int(x)] on a float: truncation towards zero. *)
Definition trunc (x : Qc) : Z := Z.quot (Qnum x) (Z.pos (Qden x)).

(** Truthiness of an optional number ([if x:]): [None] and [0] are false. *)
Definition truthy (o : option Qc) : bool :=
  match o with
  | Some x => negb (eqb x 0)
  | None => false
  end.

(** [sum(xs)] over numbers. *)
Definition sum (xs : list Qc) : Qc := foldr Qcplus 0 xs.

End Num.

(** Points in time ([datetime] values, bar dates). *)
Definition Time := Z.

(** Exceptions the modelled code can raise. *)
Inductive exn := ZeroDivisionError.

(** ** [DrawdownController] *)

Module DrawdownController.

(** The [drawdown] section of [config/risk.yaml]; every key is optional. *)
Record Config := mkConfig {
  cfg_max_drawdown_pct : option Qc;
  cfg_reduce_risk_at_drawdown : option Qc;
  cfg_kill_switch_drawdown : option Qc;
  cfg_reduce_risk_multiplier : option Qc
}.

Record t := mk {
  max_drawdown_pct : Qc;
  reduce_risk_at_drawdown : Qc;
  kill_switch_drawdown : Qc;
  reduce_risk_multiplier : Qc;
  equity_curve : list Qc;
  peak_equity : option Qc;
  kill_switch_active : bool
}.

#[global] Instance t_eq_dec : EqDecision t.
Proof. solve_decision. Defined.

(** [__init__]: thresholds from the configuration with the defaults
    0.15, 0.10, 0.20 and 0.5; empty curve, no peak, switch off. *)
Definition init (cfg : Config) : t :=
  {| max_drawdown_pct := default (Num.dec 15 100) (cfg_max_drawdown_pct cfg);
     reduce_risk_at_drawdown := default (Num.dec 10 100) (cfg_reduce_risk_at_drawdown cfg);
     kill_switch_drawdown := default (Num.dec 20 100) (cfg_kill_switch_drawdown cfg);
     reduce_risk_multiplier := default (Num.dec 5 10) (cfg_reduce_risk_multiplier cfg);
     equity_curve := [];
     peak_equity := None;
     kill_switch_active := false |}.

Definition set_curve (dc : t) (curve : list Qc) (peak : option Qc) : t :=
  {| max_drawdown_pct := max_drawdown_pct dc;
     reduce_risk_at_drawdown := reduce_risk_at_drawdown dc;
     kill_switch_drawdown := kill_switch_drawdown dc;
     reduce_risk_multiplier := reduce_risk_multiplier dc;
     equity_curve := curve;
     peak_equity := peak;
     kill_switch_active := kill_switch_active dc |}.

Definition set_kill_switch (dc : t) (b : bool) : t :=
  {| max_drawdown_pct := max_drawdown_pct dc;
     reduce_risk_at_drawdown := reduce_risk_at_drawdown dc;
     kill_switch_drawdown := kill_switch_drawdown dc;
     reduce_risk_multiplier := reduce_risk_multiplier dc;
     equity_curve := equity_curve dc;
     peak_equity := peak_equity dc;
     kill_switch_active := b |}.

(** [update_equity]: append, then raise the peak when there is none yet
    or the new value is strictly above it. *)
Definition update_equity (dc : t) (equity : Qc) : t :=
  set_curve dc (equity_curve dc ++ [equity])
    (match peak_equity dc with
     | None => Some equity
     | Some p => if Num.gtb equity p then Some equity else Some p
     end).

(** [pd.Series(xs).expanding().max()]: the running maximum. *)
Fixpoint expanding_max_from (peak : Qc) (xs : list Qc) : list Qc :=
  match xs with
  | [] => []
  | x :: rest =>
      let peak' := if Num.gtb x peak then x else peak in
      peak' :: expanding_max_from peak' rest
  end.

Definition expanding_max (xs : list Qc) : list Qc :=
  match xs with
  | [] => []
  | x :: rest => x :: expanding_max_from x rest
  end.

(** [Series.min()] of a non-empty series (0 on the empty one, which
    [calculate_drawdown] never asks for). *)
Definition series_min (xs : list Qc) : Qc :=
  match xs with
  | [] => 0
  | x :: rest => foldl (λ m y, if Num.gtb m y then y else m) x rest
  end.

(** [Series.iloc[-1]]. *)
Definition iloc_last (xs : list Qc) : Qc := default 0 (list.last xs).

(** The dictionary [calculate_drawdown] returns has two shapes: the short
    one (fewer than two points) has no [current_drawdown_pct] key. *)
Inductive DrawdownInfo :=
| Short (current_drawdown max_drawdown drawdown_pct : Qc)
| Full (current_drawdown current_drawdown_pct max_drawdown
        max_drawdown_pct peak_equity : Qc).

(** [drawdown_info.get('current_drawdown_pct', dflt)]. *)
Definition get_current_drawdown_pct (info : DrawdownInfo) (dflt : Qc) : Qc :=
  match info with
  | Short _ _ _ => dflt
  | Full _ pct _ _ _ => pct
  end.

(** [calculate_drawdown].  Division is the total division of [Qc]
    ([x / 0 = 0]); pandas yields nan or inf on a zero peak, which this
    model does not represent. *)
Definition calculate_drawdown (dc : t) (arg : option (list Qc)) : DrawdownInfo :=
  let curve := default (equity_curve dc) arg in
  if bool_decide (length curve < 2)%nat then Short 0 0 0
  else
    let peak := expanding_max curve in
    let drawdown := zip_with Qcminus curve peak in
    let drawdown_pct := zip_with (λ d p, d / p * Num.of_Z 100) drawdown peak in
    Full (Qcabs (iloc_last drawdown))
         (Qcabs (iloc_last drawdown_pct))
         (Qcabs (series_min drawdown))
         (Qcabs (series_min drawdown_pct))
         (iloc_last peak).

(** [check_max_drawdown]. *)
Definition check_max_drawdown (dc : t) : bool :=
  match equity_curve dc with
  | [] => true
  | _ =>
      let current_drawdown_pct :=
        get_current_drawdown_pct (calculate_drawdown dc None) 0 in
      if Num.gtb current_drawdown_pct (max_drawdown_pct dc) then false else true
  end.

(** [should_reduce_risk]. *)
Definition should_reduce_risk (dc : t) : bool :=
  match equity_curve dc with
  | [] => false
  | _ =>
      Num.gtb (get_current_drawdown_pct (calculate_drawdown dc None) 0)
              (reduce_risk_at_drawdown dc)
  end.

(** [get_risk_multiplier]. *)
Definition get_risk_multiplier (dc : t) : Qc :=
  if should_reduce_risk dc then reduce_risk_multiplier dc else 1.

(** [activate_kill_switch]: returns the new object and the returned flag. *)
Definition activate_kill_switch (dc : t) : t * bool :=
  match equity_curve dc with
  | [] => (dc, false)
  | _ =>
      if Num.gtb (get_current_drawdown_pct (calculate_drawdown dc None) 0)
                 (kill_switch_drawdown dc)
      then (set_kill_switch dc true, true)
      else (dc, false)
  end.

(** [is_kill_switch_active]. *)
Definition is_kill_switch_active (dc : t) : bool := kill_switch_active dc.

(** [reset_kill_switch]. *)
Definition reset_kill_switch (dc : t) : t := set_kill_switch dc false.

(** The methods of the class as commands, to speak about call sequences. *)
Inductive call :=
| UpdateEquity (equity : Qc)
| CalculateDrawdown (arg : option (list Qc))
| CheckMaxDrawdown
| ShouldReduceRisk
| GetRiskMultiplier
| ActivateKillSwitch
| IsKillSwitchActive
| ResetKillSwitch.

Definition is_reset (c : call) : bool :=
  match c with ResetKillSwitch => true | _ => false end.

Definition exec (dc : t) (c : call) : t :=
  match c with
  | UpdateEquity e => update_equity dc e
  | ActivateKillSwitch => fst (activate_kill_switch dc)
  | ResetKillSwitch => reset_kill_switch dc
  | CalculateDrawdown _ | CheckMaxDrawdown | ShouldReduceRisk
  | GetRiskMultiplier | IsKillSwitchActive => dc
  end.

Definition exec_all (dc : t) (cs : list call) : t := foldl exec dc cs.

(** The equities a call sequence appends, in order. *)
Definition updates_of (cs : list call) : list Qc :=
  omap (λ c, match c with UpdateEquity e => Some e | _ => None end) cs.

(** The larger of a peak and a new value, as [update_equity] and the
    running maximum pick it. *)
Definition raise_peak (peak x : Qc) : Qc := if Num.gtb x peak then x else peak.

(** The drawdown of the specification: the absolute value of
    (latest equity - running peak) / running peak, as a fraction. *)
Definition spec_current_drawdown (curve : list Qc) : Qc :=
  let peak := iloc_last (expanding_max curve) in
  Qcabs ((iloc_last curve - peak) / peak).

End DrawdownController.

(** ** [ExposureManager] *)

Module ExposureManager.

(** The [exposure] section of [config/risk.yaml]. *)
Record Config := mkConfig {
  cfg_max_total_exposure_pct : option Qc;
  cfg_max_sector_exposure_pct : option Qc;
  cfg_max_correlation_exposure_pct : option Qc;
  cfg_max_single_position_pct : option Qc
}.

(** An entry of the manager's own ledger: [{'size', 'price', 'value'}]. *)
Record Entry := mkEntry {
  size : Qc;
  price : Qc;
  value : Qc
}.

Record t := mk {
  max_total_exposure_pct : Qc;
  max_sector_exposure_pct : Qc;
  max_correlation_exposure_pct : Qc;
  max_single_position_pct : Qc;
  account_value : Qc;
  positions : gmap string Entry
}.

#[global] Instance Entry_eq_dec : EqDecision Entry.
Proof. solve_decision. Defined.
#[global] Instance t_eq_dec : EqDecision t.
Proof. solve_decision. Defined.

(** [__init__] with the defaults 1.0, 0.25, 0.30 and 0.10. *)
Definition init (cfg : Config) (initial_capital : Qc) : t :=
  {| max_total_exposure_pct := default 1 (cfg_max_total_exposure_pct cfg);
     max_sector_exposure_pct := default (Num.dec 25 100) (cfg_max_sector_exposure_pct cfg);
     max_correlation_exposure_pct := default (Num.dec 30 100) (cfg_max_correlation_exposure_pct cfg);
     max_single_position_pct := default (Num.dec 10 100) (cfg_max_single_position_pct cfg);
     account_value := initial_capital;
     positions := ∅ |}.

(** [update_account_value]. *)
Definition update_account_value (em : t) (v : Qc) : t :=
  {| max_total_exposure_pct := max_total_exposure_pct em;
     max_sector_exposure_pct := max_sector_exposure_pct em;
     max_correlation_exposure_pct := max_correlation_exposure_pct em;
     max_single_position_pct := max_single_position_pct em;
     account_value := v;
     positions := positions em |}.

(** [get_account_value]. *)
Definition get_account_value (em : t) : Qc := account_value em.

Definition set_positions (em : t) (ps : gmap string Entry) : t :=
  {| max_total_exposure_pct := max_total_exposure_pct em;
     max_sector_exposure_pct := max_sector_exposure_pct em;
     max_correlation_exposure_pct := max_correlation_exposure_pct em;
     max_single_position_pct := max_single_position_pct em;
     account_value := account_value em;
     positions := ps |}.

(** [add_position] and [remove_position]. *)
Definition add_position (em : t) (symbol : string) (sz pr : Qc) : t :=
  set_positions em
    (<[symbol := {| size := sz; price := pr; value := sz * pr |}]> (positions em)).

Definition remove_position (em : t) (symbol : string) : t :=
  set_positions em (delete symbol (positions em)).

(** The part of [calculate_total_exposure] its callers read. *)
Record Exposure := mkExposure {
  total_exposure : Qc;
  exposure_pct : Qc;
  max_exposure : Qc;
  max_exposure_pct : Qc
}.

Definition calculate_total_exposure (em : t) : Exposure :=
  let total := map_fold (λ _ e acc, acc + value e) 0 (positions em) in
  {| total_exposure := total;
     exposure_pct :=
       if Num.gtb (account_value em) 0 then total / account_value em else 0;
     max_exposure := account_value em * max_total_exposure_pct em;
     max_exposure_pct := max_total_exposure_pct em |}.

(** [check_max_position_size]. *)
Definition check_max_position_size (em : t) (symbol : string) (sz : Qc) : bool :=
  Num.leb sz (account_value em * max_single_position_pct em).

(** [can_add_position]. *)
Definition can_add_position (em : t) (symbol : string) (sz : Qc) : bool :=
  if bool_decide (is_Some (positions em !! symbol)) then false
  else if negb (check_max_position_size em symbol sz) then false
  else
    let info := calculate_total_exposure em in
    if Num.gtb (total_exposure info + sz) (max_exposure info) then false
    else true.

(** What [check_sector_exposure] and [check_correlation_exposure]
    return; both are placeholders that measure an exposure of 0. *)
Record LimitCheck := mkLimitCheck {
  lc_exposure : Qc;
  lc_exposure_pct : Qc;
  lc_max_exposure : Qc;
  within_limit : bool
}.

(** [check_sector_exposure]. *)
Definition check_sector_exposure (em : t) (sector : string) : LimitCheck :=
  let sector_exposure := 0 in
  let pct :=
    if Num.gtb (account_value em) 0 then sector_exposure / account_value em else 0 in
  {| lc_exposure := sector_exposure;
     lc_exposure_pct := pct;
     lc_max_exposure := account_value em * max_sector_exposure_pct em;
     within_limit := Num.leb pct (max_sector_exposure_pct em) |}.

(** [check_correlation_exposure]. *)
Definition check_correlation_exposure (em : t) : LimitCheck :=
  let correlated_exposure := 0 in
  let pct :=
    if Num.gtb (account_value em) 0 then correlated_exposure / account_value em else 0 in
  {| lc_exposure := correlated_exposure;
     lc_exposure_pct := pct;
     lc_max_exposure := account_value em * max_correlation_exposure_pct em;
     within_limit := Num.leb pct (max_correlation_exposure_pct em) |}.

End ExposureManager.

(** ** [PositionSizer] *)

Module PositionSizer.

Record t := mk {
  risk_per_trade : Qc;
  max_position_size_pct : Qc
}.

#[global] Instance t_eq_dec : EqDecision t.
Proof. solve_decision. Defined.

(** [__init__] with the defaults 0.01 and 0.10. *)
Definition init (cfg_risk_per_trade cfg_max_position_size_pct : option Qc) : t :=
  {| risk_per_trade := default (Num.dec 1 100) cfg_risk_per_trade;
     max_position_size_pct := default (Num.dec 10 100) cfg_max_position_size_pct |}.

Record Sizing := mkSizing {
  position_size : Qc;
  risk_amount : Qc;
  sz_risk_per_trade : Qc;
  stop_loss_pct : Qc;
  max_position_size : Qc
}.

(** The dictionary [calculate_position_size] returns when its division
    by the stop succeeds (the entry gate passes the constant 0.05); the
    call itself, with the exception of a zero stop, is
    [calculate_position_size_call] below. *)
Definition calculate_position_size (ps : t) (account_value : Qc)
    (risk : option Qc) (stop : Qc) : Sizing :=
  let risk := default (risk_per_trade ps) risk in
  let amount := account_value * risk in
  let cap := account_value * max_position_size_pct ps in
  {| position_size := Num.min (amount / stop) cap;
     risk_amount := amount;
     sz_risk_per_trade := risk;
     stop_loss_pct := stop;
     max_position_size := cap |}.

(** A call of [calculate_position_size]: [risk_amount / stop_loss_pct]
    raises [ZeroDivisionError] on a zero stop, before anything is
    returned. *)
Definition calculate_position_size_call (ps : t) (account_value : Qc)
    (risk : option Qc) (stop : Qc) : exn + Sizing :=
  if Num.eqb stop 0 then inl ZeroDivisionError
  else inr (calculate_position_size ps account_value risk stop).

(** [calculate_shares]: 0 on a non-positive price, else at least one
    share.  The quotient is truncated as an exact rational; Python
    truncates the quotient rounded to binary64, which can differ by one
    share when the exact quotient is within rounding distance of an
    integer. *)
Definition calculate_shares (ps : t) (price position_size : Qc) : Z :=
  if Num.leb price 0 then 0%Z
  else Z.max 1 (Num.trunc (position_size / price)).

(** Python's builtin [max(a, b)]: the first argument wins unless the
    second is strictly larger. *)
Definition py_max (a b : Qc) : Qc := if Num.gtb b a then b else a.

(** [apply_kelly_criterion]: [inr] is the returned fraction, [inl] the
    exception of the division by a zero win/loss ratio. *)
Definition apply_kelly_criterion (ps : t) (win_rate avg_win avg_loss : Qc)
    : exn + Qc :=
  if Num.eqb avg_loss 0 then inr 0
  else
    let win_loss_ratio := avg_win / Qcabs avg_loss in
    if Num.eqb win_loss_ratio 0 then inl ZeroDivisionError
    else
      let kelly_pct := (win_rate * win_loss_ratio - (1 - win_rate)) / win_loss_ratio in
      let kelly_pct := py_max 0 (Num.min 1 kelly_pct) in
      inr (kelly_pct * Num.dec 5 10).

(** [apply_fixed_fractional]. *)
Definition apply_fixed_fractional (ps : t) (account_value risk_per_trade : Qc) : Qc :=
  risk_per_trade.

End PositionSizer.

(** A price bar of the enriched history the strategies read. *)
Record Bar := mkBar {
  bar_date : Time;
  bar_close : Qc
}.

(** ** [BaseStrategy]: the six-layer entry gate *)

Module BaseStrategy.

(** The [checks] dictionary, in its insertion order. *)
Record Checks := mkChecks {
  regime : bool;
  fundamentals : bool;
  sentiment : bool;
  intermarket : bool;
  technical : bool;
  risk : bool
}.

(** [checks.values()]. *)
Definition values (c : Checks) : list bool :=
  [regime c; fundamentals c; sentiment c; intermarket c; technical c; risk c].

(** [sum(checks.values())]: booleans count as 0 and 1. *)
Definition passed_count (c : Checks) : nat :=
  length (filter (λ b, b = true) (values c)).

(** [all(checks.values())]. *)
Definition all_values (c : Checks) : bool := forallb id (values c).

(** What [check_technical_entry] returns: a dictionary whose [signal]
    key may be missing. *)
Record TechnicalSignal := mkSignal {
  signal : option bool;
  signal_reason : string
}.

(** The analysers a strategy object owns, as the answers they give. *)
Record Collaborators := mkCollaborators {
  get_regime_label : string;
  analyzer_check_fundamentals : string → string → bool;
  check_sentiment_alignment : string → string → bool;
  confirm_trade : string → string → bool;
  check_technical_entry : list Bar → TechnicalSignal
}.

Record t := mk {
  name : string;
  require_all_layers : bool;
  collaborators : Collaborators;
  position_sizer : PositionSizer.t;
  drawdown_controller : DrawdownController.t;
  exposure_manager : ExposureManager.t
}.

(** [check_regime]. *)
Definition check_regime (s : t) (required_regime : option string) : bool :=
  match required_regime with
  | None => true
  | Some r => bool_decide (get_regime_label (collaborators s) = r)
  end.

Definition check_fundamentals (s : t) (symbol direction : string) : bool :=
  analyzer_check_fundamentals (collaborators s) symbol direction.

Definition check_sentiment (s : t) (symbol direction : string) : bool :=
  check_sentiment_alignment (collaborators s) symbol direction.

Definition check_intermarket (s : t) (symbol direction : string) : bool :=
  confirm_trade (collaborators s) symbol direction.

(** [check_risk_rules]. *)
Definition check_risk_rules (s : t) (symbol : string) (sz : Qc) : bool :=
  if negb (DrawdownController.check_max_drawdown (drawdown_controller s)) then false
  else if negb (ExposureManager.can_add_position (exposure_manager s) symbol sz) then false
  else true.

Record Decision := mkDecision {
  enter : bool;
  checks : Checks;
  reasons : list string;
  technical_signal : TechnicalSignal;
  position_size : Qc
}.

(** [if required_regime:] is false on [None] and on the empty string. *)
Definition regime_required (required_regime : option string) : bool :=
  match required_regime with
  | Some r => negb (bool_decide (r = ""))
  | None => false
  end.

(** [reasons.append(msg)] when the check failed. *)
Definition note (ok : bool) (msg : string) (reasons : list string) : list string :=
  if ok then reasons else reasons ++ [msg].

(** [should_enter]: all six layers are evaluated, then the decision rule. *)
Definition should_enter (s : t) (symbol : string) (df : list Bar)
    (direction : string) (required_regime : option string) : Decision :=
  let reasons := [] in
  let c_regime :=
    if regime_required required_regime then check_regime s required_regime
    else true in
  let reasons :=
    note c_regime
      ("Regime check failed: required " ++ default "" required_regime) reasons in
  let c_fundamentals := check_fundamentals s symbol direction in
  let reasons := note c_fundamentals "Fundamental check failed" reasons in
  let c_sentiment := check_sentiment s symbol direction in
  let reasons := note c_sentiment "Sentiment check failed" reasons in
  let c_intermarket := check_intermarket s symbol direction in
  let reasons := note c_intermarket "Intermarket check failed" reasons in
  let tech := check_technical_entry (collaborators s) df in
  let c_technical := default false (signal tech) in
  let reasons := note c_technical "Technical entry check failed" reasons in
  let account_value := ExposureManager.get_account_value (exposure_manager s) in
  let position_size_dollars :=
    PositionSizer.position_size
      (PositionSizer.calculate_position_size (position_sizer s) account_value
         (Some (Num.dec 1 100)) (Num.dec 5 100)) in
  let c_risk := check_risk_rules s symbol position_size_dollars in
  let reasons := note c_risk "Risk rules check failed" reasons in
  let checks :=
    {| regime := c_regime; fundamentals := c_fundamentals;
       sentiment := c_sentiment; intermarket := c_intermarket;
       technical := c_technical; risk := c_risk |} in
  let all_passed :=
    if require_all_layers s then all_values checks
    else bool_decide (4 ≤ passed_count checks)%nat in
  {| enter := all_passed;
     checks := checks;
     reasons := reasons;
     technical_signal := tech;
     position_size := if all_passed then position_size_dollars else 0 |}.

End BaseStrategy.

(** ** Strings *)

Module Str.

(** [str.upper()] on ASCII letters. *)
Definition upper_ascii (c : ascii) : ascii :=
  let n := nat_of_ascii c in
  if (97 <=? n)%nat && (n <=? 122)%nat then ascii_of_nat (n - 32) else c.

Fixpoint upper (s : string) : string :=
  match s with
  | EmptyString => EmptyString
  | String c rest => String (upper_ascii c) (upper rest)
  end.

(** [s.endswith(suffix)]. *)
Definition endswith (s suffix : string) : bool :=
  let n := String.length s in
  let k := String.length suffix in
  (k <=? n)%nat && String.eqb (String.substring (n - k) k s) suffix.

End Str.

(** ** [PaperTrader] *)

Module PaperTrader.

(** A position dictionary; the three transient keys are written by
    [_update_position_pnl] only. *)
Record Position := mkPosition {
  shares : Z;
  entry_price : Qc;
  entry_date : Time;
  current_price : option Qc;
  unrealized_pnl : option Qc;
  unrealized_pnl_pct : option Qc
}.

(** A record of the order log. *)
Record OrderRecord := mkOrderRecord {
  or_symbol : string;
  or_side : string;
  or_quantity : Z;
  or_price : Qc;
  or_cost : option Qc;
  or_proceeds : option Qc;
  or_pnl : option Qc;
  or_timestamp : Time;
  or_status : string
}.

(** A closed trade. *)
Record Trade := mkTrade {
  tr_symbol : string;
  tr_entry_price : Qc;
  tr_exit_price : Qc;
  tr_quantity : Z;
  tr_pnl : Qc;
  tr_timestamp : Time
}.

Record t := mk {
  initial_capital : Qc;
  cash : Qc;
  positions : gmap string Position;
  orders : list OrderRecord;
  trades : list Trade;
  position_sizer : PositionSizer.t;
  drawdown_controller : DrawdownController.t;
  exposure_manager : ExposureManager.t
}.

(** The order dictionary a caller submits; every key but the symbol is
    read with [order.get(key, default)]. *)
Record Order := mkOrder {
  o_symbol : string;
  o_side : option string;
  o_quantity : option Z;
  o_type : option string;
  o_limit_price : option Qc
}.

(** A quote dictionary; [{}] has no price. *)
Record Quote := mkQuote {
  q_price : option Qc
}.

(** What [execute_order] returns. *)
Inductive OrderResult :=
| FILLED (execution_price : Qc) (pnl : option Qc)
| REJECTED (reason : string).

(** A call either returns or raises. *)
Inductive outcome (A : Type) :=
| Returned (a : A)
| Raised (e : exn).
Arguments Returned {A} a.
Arguments Raised {A} e.

#[global] Instance Position_eq_dec : EqDecision Position.
Proof. solve_decision. Defined.
#[global] Instance OrderRecord_eq_dec : EqDecision OrderRecord.
Proof. solve_decision. Defined.
#[global] Instance Trade_eq_dec : EqDecision Trade.
Proof. solve_decision. Defined.
#[global] Instance OrderResult_eq_dec : EqDecision OrderResult.
Proof. solve_decision. Defined.
#[global] Instance exn_eq_dec : EqDecision exn.
Proof. solve_decision. Defined.
#[global] Instance outcome_eq_dec `{EqDecision A} : EqDecision (outcome A).
Proof. solve_decision. Defined.
#[global] Instance t_eq_dec : EqDecision t.
Proof. solve_decision. Defined.

(** [__init__]. *)
Definition init (initial_capital : Qc) (sizer : PositionSizer.t)
    (dd_cfg : DrawdownController.Config) (ex_cfg : ExposureManager.Config) : t :=
  {| initial_capital := initial_capital;
     cash := initial_capital;
     positions := ∅;
     orders := [];
     trades := [];
     position_sizer := sizer;
     drawdown_controller := DrawdownController.init dd_cfg;
     exposure_manager := ExposureManager.init ex_cfg initial_capital |}.

(** [initialize_account]: the argument replaces the stored capital only
    when it is truthy. *)
Definition initialize_account (pt : t) (arg : option Qc) : t :=
  let capital :=
    if Num.truthy arg then default (initial_capital pt) arg
    else initial_capital pt in
  {| initial_capital := capital;
     cash := capital;
     positions := ∅;
     orders := [];
     trades := [];
     position_sizer := position_sizer pt;
     drawdown_controller := drawdown_controller pt;
     exposure_manager :=
       ExposureManager.update_account_value (exposure_manager pt) capital |}.

(** Field updates. *)
Definition set_cash (pt : t) (c : Qc) : t :=
  {| initial_capital := initial_capital pt; cash := c;
     positions := positions pt; orders := orders pt; trades := trades pt;
     position_sizer := position_sizer pt;
     drawdown_controller := drawdown_controller pt;
     exposure_manager := exposure_manager pt |}.

Definition set_positions (pt : t) (ps : gmap string Position) : t :=
  {| initial_capital := initial_capital pt; cash := cash pt;
     positions := ps; orders := orders pt; trades := trades pt;
     position_sizer := position_sizer pt;
     drawdown_controller := drawdown_controller pt;
     exposure_manager := exposure_manager pt |}.

Definition append_order (pt : t) (o : OrderRecord) : t :=
  {| initial_capital := initial_capital pt; cash := cash pt;
     positions := positions pt; orders := orders pt ++ [o]; trades := trades pt;
     position_sizer := position_sizer pt;
     drawdown_controller := drawdown_controller pt;
     exposure_manager := exposure_manager pt |}.

Definition append_trade (pt : t) (tr : Trade) : t :=
  {| initial_capital := initial_capital pt; cash := cash pt;
     positions := positions pt; orders := orders pt; trades := trades pt ++ [tr];
     position_sizer := position_sizer pt;
     drawdown_controller := drawdown_controller pt;
     exposure_manager := exposure_manager pt |}.

Definition set_risk (pt : t) (dc : DrawdownController.t) (em : ExposureManager.t) : t :=
  {| initial_capital := initial_capital pt; cash := cash pt;
     positions := positions pt; orders := orders pt; trades := trades pt;
     position_sizer := position_sizer pt;
     drawdown_controller := dc;
     exposure_manager := em |}.

(** [_execute_buy].  [cash] is decremented before the position is
    touched, so the division by a zero share total raises with the cash
    already spent. *)
Definition _execute_buy (pt : t) (symbol : string) (quantity : Z) (price : Qc)
    (now : Time) : t * outcome OrderResult :=
  let cost := Num.of_Z quantity * price in
  if Num.gtb cost (cash pt) then (pt, Returned (REJECTED "Insufficient cash"))
  else
    let pt1 := set_cash pt (cash pt - cost) in
    let filled (p : Position) :=
      let pt2 := set_positions pt1 (<[symbol := p]> (positions pt1)) in
      let pt3 :=
        append_order pt2
          {| or_symbol := symbol; or_side := "BUY"; or_quantity := quantity;
             or_price := price; or_cost := Some cost; or_proceeds := None;
             or_pnl := None; or_timestamp := now; or_status := "FILLED" |} in
      (pt3, Returned (FILLED price None)) in
    match positions pt1 !! symbol with
    | Some pos =>
        let total_shares := (shares pos + quantity)%Z in
        if bool_decide (total_shares = 0%Z) then (pt1, Raised ZeroDivisionError)
        else
          let avg_price :=
            (Num.of_Z (shares pos) * entry_price pos + cost) / Num.of_Z total_shares in
          filled {| shares := total_shares; entry_price := avg_price;
                    entry_date := entry_date pos; current_price := None;
                    unrealized_pnl := None; unrealized_pnl_pct := None |}
    | None =>
        filled {| shares := quantity; entry_price := price;
                  entry_date := now; current_price := None;
                  unrealized_pnl := None; unrealized_pnl_pct := None |}
    end.

(** [_execute_sell]. *)
Definition _execute_sell (pt : t) (symbol : string) (quantity : Z) (price : Qc)
    (now : Time) : t * outcome OrderResult :=
  match positions pt !! symbol with
  | None => (pt, Returned (REJECTED "No position"))
  | Some position =>
      if bool_decide (shares position < quantity)%Z
      then (pt, Returned (REJECTED "Insufficient shares"))
      else
        let proceeds := Num.of_Z quantity * price in
        let pt1 := set_cash pt (cash pt + proceeds) in
        let remaining_shares := (shares position - quantity)%Z in
        let pt2 :=
          if bool_decide (remaining_shares = 0%Z)
          then set_positions pt1 (delete symbol (positions pt1))
          else set_positions pt1
                 (<[symbol := {| shares := remaining_shares;
                                 entry_price := entry_price position;
                                 entry_date := entry_date position;
                                 current_price := current_price position;
                                 unrealized_pnl := unrealized_pnl position;
                                 unrealized_pnl_pct := unrealized_pnl_pct position |}]>
                    (positions pt1)) in
        let pnl := (price - entry_price position) * Num.of_Z quantity in
        let pt3 :=
          append_order pt2
            {| or_symbol := symbol; or_side := "SELL"; or_quantity := quantity;
               or_price := price; or_cost := None; or_proceeds := Some proceeds;
               or_pnl := Some pnl; or_timestamp := now; or_status := "FILLED" |} in
        let pt4 :=
          append_trade pt3
            {| tr_symbol := symbol; tr_entry_price := entry_price position;
               tr_exit_price := price; tr_quantity := quantity; tr_pnl := pnl;
               tr_timestamp := now |} in
        (pt4, Returned (FILLED price (Some pnl)))
  end.

(** The locals [execute_order] reads from the order and the quote:
    [side], [quantity], [order_type], [market], [current_price] and
    [limit_price].  [fetch symbol market] is the quote source
    [data_fetcher.get_realtime_quote]. *)
Definition order_side (order : Order) : string :=
  Str.upper (default "BUY" (o_side order)).

Definition order_quantity (order : Order) : Z := default 0%Z (o_quantity order).

Definition order_type (order : Order) : string :=
  Str.upper (default "MARKET" (o_type order)).

Definition order_market (order : Order) : string :=
  if Str.endswith (o_symbol order) ".NS" || Str.endswith (o_symbol order) ".BO"
  then "india" else "us".

Definition quoted_price (fetch : string → string → Quote) (order : Order) : Qc :=
  default 0 (q_price (fetch (o_symbol order) (order_market order))).

Definition order_limit (fetch : string → string → Quote) (order : Order) : Qc :=
  default (quoted_price fetch order) (o_limit_price order).

(** [execute_order]. *)
Definition execute_order (fetch : string → string → Quote) (pt : t)
    (order : Order) (now : Time) : t * outcome OrderResult :=
  let symbol := o_symbol order in
  let side := order_side order in
  let quantity := order_quantity order in
  let current_price := quoted_price fetch order in
  let execute (execution_price : Qc) :=
    if String.eqb side "BUY"
    then _execute_buy pt symbol quantity execution_price now
    else _execute_sell pt symbol quantity execution_price now in
  if String.eqb (order_type order) "MARKET" then execute current_price
  else if String.eqb (order_type order) "LIMIT" then
    let limit_price := order_limit fetch order in
    if String.eqb side "BUY" && Num.leb current_price limit_price
    then execute limit_price
    else if String.eqb side "SELL" && Num.geb current_price limit_price
    then execute limit_price
    else (pt, Returned (REJECTED "Limit price not met"))
  else (pt, Returned (REJECTED "Unsupported order type")).

(** Whether an outcome is a fill. *)
Definition is_filled (o : outcome OrderResult) : Prop :=
  ∃ price pnl, o = Returned (FILLED price pnl).

(** [_update_position_pnl]: the three keys are written one after the
    other, the last one divides by the entry price. *)
Definition _update_position_pnl (pt : t) (symbol : string) (price : Qc)
    : t * outcome unit :=
  match positions pt !! symbol with
  | None => (pt, Returned ())
  | Some position =>
      let upnl := (price - entry_price position) * Num.of_Z (shares position) in
      let marked pct :=
        {| shares := shares position; entry_price := entry_price position;
           entry_date := entry_date position; current_price := Some price;
           unrealized_pnl := Some upnl; unrealized_pnl_pct := pct |} in
      if Num.eqb (entry_price position) 0
      then (set_positions pt
              (<[symbol := marked (unrealized_pnl_pct position)]> (positions pt)),
            Raised ZeroDivisionError)
      else (set_positions pt
              (<[symbol :=
                   marked (Some ((price - entry_price position)
                                 / entry_price position * Num.of_Z 100))]>
                 (positions pt)),
            Returned ())
  end.

(** The mark of a position: [position.get('current_price',
    position['entry_price'])]. *)
Definition mark_price (p : Position) : Qc :=
  default (entry_price p) (current_price p).

(** [_calculate_equity]: the accumulator starts at the cash balance and
    adds shares times mark for every position. *)
Definition _calculate_equity (pt : t) : Qc :=
  map_fold (λ _ position equity, equity + Num.of_Z (shares position) * mark_price position)
    (cash pt) (positions pt).

(** [process_market_data]: [price] is [data.get('price', 0)]. *)
Definition process_market_data (pt : t) (symbol : string) (data : Quote)
    : t * outcome unit :=
  let price := default 0 (q_price data) in
  let '(pt1, r) :=
    if bool_decide (is_Some (positions pt !! symbol))
    then _update_position_pnl pt symbol price
    else (pt, Returned ()) in
  match r with
  | Raised e => (pt1, Raised e)
  | Returned _ =>
      let equity := _calculate_equity pt1 in
      (set_risk pt1
         (DrawdownController.update_equity (drawdown_controller pt1) equity)
         (ExposureManager.update_account_value (exposure_manager pt1) equity),
       Returned ())
  end.

(** The part of [get_account_summary] that does not divide. *)
Record Summary := mkSummary {
  sm_equity : Qc;
  sm_cash : Qc;
  sm_initial_capital : Qc;
  sm_total_pnl : Qc;
  sm_positions : nat;
  sm_num_trades : nat
}.

Definition get_account_summary (pt : t) : outcome Summary :=
  let equity := _calculate_equity pt in
  if Num.eqb (initial_capital pt) 0 then Raised ZeroDivisionError
  else Returned
         {| sm_equity := equity;
            sm_cash := cash pt;
            sm_initial_capital := initial_capital pt;
            sm_total_pnl := equity - initial_capital pt;
            sm_positions := size (positions pt);
            sm_num_trades := length (trades pt) |}.

(** What [get_execution_preview] returns: an error message or the price
    and value the order would execute at. *)
Inductive Preview :=
| PreviewError (error : string)
| PreviewOk (would_execute_at : Qc) (quantity : Z) (side : string)
            (estimated_value : Qc).

#[global] Instance Preview_eq_dec : EqDecision Preview.
Proof. solve_decision. Defined.

(** [get_execution_preview]: the sibling of [execute_order] that prices
    an order without executing it. *)
Definition get_execution_preview (fetch : string → string → Quote) (pt : t)
    (order : Order) : Preview :=
  let side := order_side order in
  let quantity := order_quantity order in
  if bool_decide (quantity ≤ 0)%Z then PreviewError "Invalid quantity"
  else
    let price := quoted_price fetch order in
    if Num.eqb price 0 then PreviewError "Could not get current price"
    else
      let price :=
        if String.eqb (order_type order) "LIMIT" then
          let limit_price := default price (o_limit_price order) in
          if String.eqb side "BUY" && Num.gtb price limit_price then limit_price
          else if String.eqb side "SELL" && Num.gtb limit_price price then limit_price
          else price
        else price in
      PreviewOk price quantity side (Num.of_Z quantity * price).

(** The events that drive a paper-trading session. *)
Inductive event :=
| Submit (order : Order) (now : Time)
| Tick (symbol : string) (data : Quote)
| Reinitialize (capital : option Qc).

Definition step (fetch : string → string → Quote) (pt : t) (ev : event) : t :=
  match ev with
  | Submit order now => fst (execute_order fetch pt order now)
  | Tick symbol data => fst (process_market_data pt symbol data)
  | Reinitialize capital => initialize_account pt capital
  end.

Definition run (fetch : string → string → Quote) (pt : t) (evs : list event) : t :=
  foldl (step fetch) pt evs.

(** [get_trades] and [get_orders]: copies of the two logs. *)
Definition get_trades (pt : t) : list Trade := trades pt.
Definition get_orders (pt : t) : list OrderRecord := orders pt.

(** The cash an order record moved. *)
Definition order_cash_flow (o : OrderRecord) : Qc :=
  default 0 (or_proceeds o) - default 0 (or_cost o).

(** Every recorded position holds a positive number of shares. *)
Definition positions_positive (pt : t) : Prop :=
  ∀ symbol pos, positions pt !! symbol = Some pos → (0 < shares pos)%Z.

(** The cash is the initial capital plus what the logged orders moved. *)
Definition ledger_balanced (pt : t) : Prop :=
  cash pt = initial_capital pt + Num.sum (order_cash_flow <$> orders pt).

(** An event whose order, if it is one, asks for a positive quantity. *)
Definition positive_quantity (ev : event) : Prop :=
  match ev with
  | Submit order _ => (0 < order_quantity order)%Z
  | _ => True
  end.

(** The sum of the specification: shares times mark over the open
    positions. *)
Definition spec_position_value (pt : t) : Qc :=
  Num.sum ((λ kv, Num.of_Z (shares kv.2) * mark_price kv.2) <$> map_to_list (positions pt)).

End PaperTrader.

(** ** [Backtester] *)

Module Backtester.

Record Position := mkPosition {
  shares : Z;
  entry_price : Qc;
  entry_date : Time
}.

(** The records of the trade log, tagged by their [type] key. *)
Inductive TradeRecord :=
| ENTRY (symbol : string) (shares : Z) (price cost : Qc) (date : Time)
| EXIT (symbol : string) (shares : Z) (price proceeds pnl pnl_pct : Qc)
       (reason : string) (date : Time).

#[global] Instance Position_eq_dec : EqDecision Position.
Proof. solve_decision. Defined.
#[global] Instance TradeRecord_eq_dec : EqDecision TradeRecord.
Proof. solve_decision. Defined.

Record t := mk {
  initial_capital : Qc;
  commission : Qc;
  slippage_bps : Qc;
  cash : Qc;
  positions : gmap string Position;
  trades : list TradeRecord;
  equity_curve : list Qc;
  dates : list Time;
  position_sizer : PositionSizer.t;
  drawdown_controller : DrawdownController.t;
  exposure_manager : ExposureManager.t
}.

#[global] Instance t_eq_dec : EqDecision t.
Proof. solve_decision. Defined.

(** [__init__]: the slippage argument is in basis points. *)
Definition init (initial_capital commission slippage : Qc)
    (sizer : PositionSizer.t) (dd_cfg : DrawdownController.Config)
    (ex_cfg : ExposureManager.Config) : t :=
  {| initial_capital := initial_capital;
     commission := commission;
     slippage_bps := slippage / Num.of_Z 10000;
     cash := initial_capital;
     positions := ∅;
     trades := [];
     equity_curve := [initial_capital];
     dates := [];
     position_sizer := sizer;
     drawdown_controller := DrawdownController.init dd_cfg;
     exposure_manager := ExposureManager.init ex_cfg initial_capital |}.

(** The account part of the object; the other fields are kept. *)
Definition with_account (bt : t) (c : Qc) (ps : gmap string Position)
    (ts : list TradeRecord) : t :=
  {| initial_capital := initial_capital bt; commission := commission bt;
     slippage_bps := slippage_bps bt;
     cash := c; positions := ps; trades := ts;
     equity_curve := equity_curve bt; dates := dates bt;
     position_sizer := position_sizer bt;
     drawdown_controller := drawdown_controller bt;
     exposure_manager := exposure_manager bt |}.

(** [self.dates[-1] if self.dates else datetime.now()]. *)
Definition current_date (bt : t) (now : Time) : Time :=
  default now (list.last (dates bt)).

(** [_execute_entry]. *)
Definition _execute_entry (bt : t) (symbol : string) (price position_size : Qc)
    (now : Time) : t :=
  let execution_price := price * (1 + slippage_bps bt) in
  let shares :=
    PositionSizer.calculate_shares (position_sizer bt) execution_price position_size in
  let cost := Num.of_Z shares * execution_price in
  let commission_cost := Num.of_Z shares * commission bt in
  let total_cost := cost + commission_cost in
  if Num.gtb total_cost (cash bt) then bt
  else
    with_account bt (cash bt - total_cost)
      (<[symbol := {| shares := shares; entry_price := execution_price;
                      entry_date := current_date bt now |}]> (positions bt))
      (trades bt ++ [ENTRY symbol shares execution_price total_cost (current_date bt now)]).

(** The [total_cost] that [_execute_entry] compares with the cash. *)
Definition entry_total_cost (bt : t) (price position_size : Qc) : Qc :=
  let execution_price := price * (1 + slippage_bps bt) in
  let shares :=
    PositionSizer.calculate_shares (position_sizer bt) execution_price position_size in
  Num.of_Z shares * execution_price + Num.of_Z shares * commission bt.

(** [_execute_exit] as a run executes it.  The prices of a run are
    numpy floats, whose division does not raise; [pnl_pct] uses the total
    division of [Qc], so on a zero cost basis (a position of 0 shares,
    or an entry price of 0) the recorded [pnl_pct] is 0 where numpy
    records nan or inf.  A call with Python floats is
    [_execute_exit_call] below. *)
Definition _execute_exit (bt : t) (symbol : string) (price : Qc) (reason : string)
    (now : Time) : t :=
  match positions bt !! symbol with
  | None => bt
  | Some position =>
      let shares := shares position in
      let entry_price := entry_price position in
      let execution_price := price * (1 - slippage_bps bt) in
      let proceeds := Num.of_Z shares * execution_price in
      let commission_cost := Num.of_Z shares * commission bt in
      let net_proceeds := proceeds - commission_cost in
      let pnl := net_proceeds - Num.of_Z shares * entry_price in
      let pnl_pct := pnl / (Num.of_Z shares * entry_price) * Num.of_Z 100 in
      with_account bt (cash bt + net_proceeds)
        (delete symbol (positions bt))
        (trades bt ++ [EXIT symbol shares execution_price net_proceeds pnl pnl_pct
                         reason (current_date bt now)])
  end.


(** [_calculate_equity]: every open position is marked at the one
    price passed in. *)
Definition _calculate_equity (bt : t) (current_price : Qc) : Qc :=
  map_fold (λ _ position equity, equity + Num.of_Z (shares position) * current_price)
    (cash bt) (positions bt).

(** The strategy object the run is given: [should_exit] and
    [should_enter] answer with dictionaries. *)
Record ExitSignal := mkExit {
  exit : bool;
  exit_reason : string
}.

(** [position_size] is a number or a dictionary with a [position_size]
    key. *)
Inductive SizeValue :=
| SizeNum (x : Qc)
| SizeDict (x : option Qc).

Record EntryDecision := mkEntry {
  enter : bool;
  position_size : SizeValue
}.

Record Strategy := mkStrategy {
  should_exit : string → list Bar → Position → ExitSignal;
  should_enter : string → list Bar → string → EntryDecision
}.

(** The narrowing of [position_size] to a float. *)
Definition size_of (v : SizeValue) : Qc :=
  match v with
  | SizeNum x => x
  | SizeDict x => default 0 x
  end.

(** The head of the loop body: record the date, mark the account at the
    close and push the equity to the curve and the risk objects. *)
Definition mark_to_market (bt : t) (date : Time) (current_price : Qc) : t :=
  let equity := _calculate_equity bt current_price in
  {| initial_capital := initial_capital bt; commission := commission bt;
     slippage_bps := slippage_bps bt;
     cash := cash bt; positions := positions bt; trades := trades bt;
     equity_curve := equity_curve bt ++ [equity];
     dates := dates bt ++ [date];
     position_sizer := position_sizer bt;
     drawdown_controller :=
       DrawdownController.update_equity (drawdown_controller bt) equity;
     exposure_manager :=
       ExposureManager.update_account_value (exposure_manager bt) equity |}.

(** The exit check of the loop body. *)
Definition exit_step (strategy : Strategy) (symbol : string) (seen : list Bar)
    (current_price : Qc) (now : Time) (bt : t) : t :=
  match positions bt !! symbol with
  | Some position =>
      let exit_signal := should_exit strategy symbol seen position in
      if exit exit_signal
      then _execute_exit bt symbol current_price (exit_reason exit_signal) now
      else bt
  | None => bt
  end.

(** The entry check of the loop body. *)
Definition entry_step (strategy : Strategy) (symbol : string) (seen : list Bar)
    (current_price : Qc) (now : Time) (bt : t) : t :=
  match positions bt !! symbol with
  | None =>
      let entry_decision := should_enter strategy symbol seen "LONG" in
      if enter entry_decision then
        let position_size := size_of (position_size entry_decision) in
        if Num.gtb position_size 0
        then _execute_entry bt symbol current_price position_size now
        else bt
      else bt
  | Some _ => bt
  end.

(** One iteration of the loop; [seen] is [df.loc[:date]], the rows up to
    and including the current one. *)
Definition process_bar (strategy : Strategy) (symbol : string) (now : Time)
    (bt : t) (seen : list Bar) (bar : Bar) : t :=
  let current_price := bar_close bar in
  let bt1 := mark_to_market bt (bar_date bar) current_price in
  let bt2 := exit_step strategy symbol seen current_price now bt1 in
  entry_step strategy symbol seen current_price now bt2.

Fixpoint run_bars (strategy : Strategy) (symbol : string) (now : Time)
    (bt : t) (seen rest : list Bar) : t :=
  match rest with
  | [] => bt
  | bar :: rest' =>
      let seen' := seen ++ [bar] in
      run_bars strategy symbol now (process_bar strategy symbol now bt seen' bar)
        seen' rest'
  end.

(** The state reset at the start of a run. *)
Definition reset (bt : t) : t :=
  {| initial_capital := initial_capital bt; commission := commission bt;
     slippage_bps := slippage_bps bt;
     cash := initial_capital bt; positions := ∅; trades := [];
     equity_curve := [initial_capital bt]; dates := [];
     position_sizer := position_sizer bt;
     drawdown_controller := drawdown_controller bt;
     exposure_manager := exposure_manager bt |}.

(** [run_backtest] from the state reset on; [df] is the fetched history
    already cut to the date range.  The object after the run carries the
    trades, the equity curve and the dates of the returned dictionary;
    the metrics are not modelled. *)
Definition run_backtest (strategy : Strategy) (symbol : string) (df : list Bar)
    (now : Time) (bt : t) : t :=
  let bt1 := run_bars strategy symbol now (reset bt) [] df in
  match positions bt1 !! symbol, list.last df with
  | Some _, Some final => _execute_exit bt1 symbol (bar_close final) "End of backtest" now
  | _, _ => bt1
  end.

(** [final_equity] of the returned dictionary: [equity_curve[-1]]. *)
Definition final_equity (bt : t) : Qc := default 0 (list.last (equity_curve bt)).

(** The events of the bookkeeping contract. *)
Inductive event :=
| Entry (symbol : string) (price position_size : Qc)
| Exit (symbol : string) (price : Qc) (reason : string)
| Mark (date : Time) (current_price : Qc).

Definition step (now : Time) (bt : t) (ev : event) : t :=
  match ev with
  | Entry symbol price sz => _execute_entry bt symbol price sz now
  | Exit symbol price reason => _execute_exit bt symbol price reason now
  | Mark date price => mark_to_market bt date price
  end.

Definition run (now : Time) (bt : t) (evs : list event) : t := foldl (step now) bt evs.

(** The sum of the specification: shares times the bar close over the
    open positions. *)
Definition spec_position_value (bt : t) (current_price : Qc) : Qc :=
  Num.sum ((λ kv, Num.of_Z (shares kv.2) * current_price) <$> map_to_list (positions bt)).

(** [_calculate_period] on the number of days between the two dates. *)
Definition _calculate_period (days : Z) : string :=
  if bool_decide (days ≤ 5)%Z then "5d"
  else if bool_decide (days ≤ 30)%Z then "1mo"
  else if bool_decide (days ≤ 90)%Z then "3mo"
  else if bool_decide (days ≤ 180)%Z then "6mo"
  else if bool_decide (days ≤ 365)%Z then "1y"
  else "2y".

(** [t.get('pnl', 0)] on a record of the trade log: an ENTRY has no
    [pnl] key. *)
Definition trade_pnl (tr : TradeRecord) : Qc :=
  match tr with
  | ENTRY _ _ _ _ _ => 0
  | EXIT _ _ _ _ pnl _ _ _ => pnl
  end.

(** The trade statistics of [_calculate_metrics]: [winning_trades],
    [win_rate] and [num_trades].  (The return, CAGR, Sharpe and drawdown
    entries of the dictionary are not modelled.) *)
Definition winning_trades (bt : t) : list TradeRecord :=
  filter (λ tr, 0 < trade_pnl tr) (trades bt).

Definition win_rate (bt : t) : Qc :=
  match trades bt with
  | [] => 0
  | _ => Num.of_Z (Z.of_nat (length (winning_trades bt)))
         / Num.of_Z (Z.of_nat (length (trades bt)))
  end.

Definition num_trades (bt : t) : nat := length (trades bt).

(** [_calculate_metrics], restricted to its trade statistics: the empty
    dictionary ([None]) on a curve of fewer than two points. *)
Record TradeStats := mkTradeStats {
  m_win_rate : Qc;
  m_num_trades : nat
}.

Definition _calculate_metrics (bt : t) : option TradeStats :=
  if bool_decide (length (equity_curve bt) < 2)%nat then None
  else Some {| m_win_rate := win_rate bt; m_num_trades := num_trades bt |}.

(** The cash a record of the trade log moved: an ENTRY took its [cost],
    an EXIT brought its [proceeds]. *)
Definition trade_cash_flow (tr : TradeRecord) : Qc :=
  match tr with
  | ENTRY _ _ _ cost _ => - cost
  | EXIT _ _ _ proceeds _ _ _ _ => proceeds
  end.

Definition is_entry (tr : TradeRecord) : bool :=
  match tr with ENTRY _ _ _ _ _ => true | EXIT _ _ _ _ _ _ _ _ => false end.

(** The number of ENTRY and of EXIT records of a trade log. *)
Definition entries (ts : list TradeRecord) : nat :=
  length (filter (λ tr, is_entry tr = true) ts).

Definition exits (ts : list TradeRecord) : nat :=
  length (filter (λ tr, is_entry tr = false) ts).

(** The state a run keeps between bars: positions in the traded symbol
    only, one more ENTRY than EXIT records exactly while the position is
    open, and a cash balance equal to the initial capital plus what the
    logged trades moved. *)
Definition run_invariant (symbol : string) (bt : t) : Prop :=
  (∀ s, s ≠ symbol → positions bt !! s = None)
  ∧ entries (trades bt)
    = (exits (trades bt)
       + match positions bt !! symbol with Some _ => 1 | None => 0 end)%nat
  ∧ cash bt = initial_capital bt + Num.sum (trade_cash_flow <$> trades bt).

End Backtester.

(** ** The order arithmetic in binary64

    Python evaluates the numbers of the engines in IEEE binary64.  The
    definitions above read them as exact rationals; where a statement is
    about exactness itself, the account part of the paper trader's
    [_execute_buy] and [_execute_sell] is repeated here over binary64
    floats, operation by operation.  The order and trade logs and the
    entry dates, from which no number is read, are left out. *)

Module Binary64.
Import PrimFloat.
#[local] Open Scope float_scope.

(** The conversion of the [int] operand of [int * float]: exact below
    2^53 and rounded to nearest above, as Python's is, for integers of
    magnitude below 2^63. *)
Definition of_int (n : Z) : float :=
  if (n <? 0)%Z then - of_uint63 (Uint63.of_Z (- n))
  else of_uint63 (Uint63.of_Z n).

Record Position := mkPosition {
  shares : Z;
  entry_price : float
}.

Record t := mk {
  cash : float;
  positions : gmap string Position
}.

Inductive OrderResult :=
| FILLED (execution_price : float) (pnl : option float)
| REJECTED (reason : string).

(** [_execute_buy]. *)
Definition _execute_buy (pt : t) (symbol : string) (quantity : Z) (price : float)
    : t * PaperTrader.outcome OrderResult :=
  let cost := of_int quantity * price in
  if cash pt <? cost then (pt, PaperTrader.Returned (REJECTED "Insufficient cash"))
  else
    let pt1 := {| cash := cash pt - cost; positions := positions pt |} in
    match positions pt1 !! symbol with
    | Some pos =>
        let total_shares := (shares pos + quantity)%Z in
        if bool_decide (total_shares = 0%Z)
        then (pt1, PaperTrader.Raised ZeroDivisionError)
        else
          let avg_price :=
            (of_int (shares pos) * entry_price pos + cost) / of_int total_shares in
          ({| cash := cash pt1;
              positions :=
                <[symbol := {| shares := total_shares; entry_price := avg_price |}]>
                  (positions pt1) |},
           PaperTrader.Returned (FILLED price None))
    | None =>
        ({| cash := cash pt1;
            positions :=
              <[symbol := {| shares := quantity; entry_price := price |}]>
                (positions pt1) |},
         PaperTrader.Returned (FILLED price None))
    end.

(** [_execute_sell]. *)
Definition _execute_sell (pt : t) (symbol : string) (quantity : Z) (price : float)
    : t * PaperTrader.outcome OrderResult :=
  match positions pt !! symbol with
  | None => (pt, PaperTrader.Returned (REJECTED "No position"))
  | Some position =>
      if bool_decide (shares position < quantity)%Z
      then (pt, PaperTrader.Returned (REJECTED "Insufficient shares"))
      else
        let proceeds := of_int quantity * price in
        let cash1 := cash pt + proceeds in
        let remaining_shares := (shares position - quantity)%Z in
        let positions1 :=
          if bool_decide (remaining_shares = 0%Z) then delete symbol (positions pt)
          else <[symbol := {| shares := remaining_shares;
                              entry_price := entry_price position |}]>
                 (positions pt) in
        let pnl := (price - entry_price position) * of_int quantity in
        ({| cash := cash1; positions := positions1 |},
         PaperTrader.Returned (FILLED price (Some pnl)))
  end.




End Binary64.

(** * Sample inputs *)

Definition no_drawdown_config : DrawdownController.Config :=
  DrawdownController.mkConfig None None None None.

Definition no_exposure_config : ExposureManager.Config :=
  ExposureManager.mkConfig None None None None.

(** A paper trader as [PaperTrader(initial_capital)] builds it with an
    empty [risk.yaml]. *)
Definition fresh_trader (capital : Qc) : PaperTrader.t :=
  PaperTrader.init capital (PositionSizer.init None None)
    no_drawdown_config no_exposure_config.

(** A quote source that answers every symbol with the given dictionary. *)
Definition quote_at (price : Qc) : string → string → PaperTrader.Quote :=
  λ _ _, PaperTrader.mkQuote (Some price).

Definition no_quote : string → string → PaperTrader.Quote :=
  λ _ _, PaperTrader.mkQuote None.

Definition limit_order (side : string) (quantity : Z) (limit : Qc) : PaperTrader.Order :=
  PaperTrader.mkOrder "AAPL" (Some side) (Some quantity) (Some "LIMIT") (Some limit).

Definition market_order (side : string) (quantity : Z) : PaperTrader.Order :=
  PaperTrader.mkOrder "AAPL" (Some side) (Some quantity) (Some "MARKET") None.

(** A controller whose switch was really thrown: equity fell from 100 to
    50, a 50 % drawdown, and [activate_kill_switch] was called. *)
Definition tripped : DrawdownController.t :=
  fst (DrawdownController.activate_kill_switch
         (foldl DrawdownController.update_equity
            (DrawdownController.init no_drawdown_config)
            [Num.of_Z 100; Num.of_Z 50])).

(** The controller of the default configuration (threshold 0.15) after
    the equities 100 and 99: a drawdown of one percent. *)
Definition one_percent_down : DrawdownController.t :=
  foldl DrawdownController.update_equity
    (DrawdownController.init no_drawdown_config)
    [Num.of_Z 100; Num.of_Z 99].

(** A quorum strategy: no regime is required, the sentiment layer fails,
    intermarket and the technical signal pass, and the risk layer fails
    on a 50 % drawdown.  With passing fundamentals exactly four layers
    pass, with failing fundamentals exactly three. *)
Definition quorum_strategy (fund : bool) : BaseStrategy.t :=
  {| BaseStrategy.name := "Generated Strategy";
     BaseStrategy.require_all_layers := false;
     BaseStrategy.collaborators :=
       {| BaseStrategy.get_regime_label := "RISK_OFF";
          BaseStrategy.analyzer_check_fundamentals := λ _ _, fund;
          BaseStrategy.check_sentiment_alignment := λ _ _, false;
          BaseStrategy.confirm_trade := λ _ _, true;
          BaseStrategy.check_technical_entry :=
            λ _, BaseStrategy.mkSignal (Some true) "" |};
     BaseStrategy.position_sizer := PositionSizer.init None None;
     BaseStrategy.drawdown_controller :=
       foldl DrawdownController.update_equity
         (DrawdownController.init no_drawdown_config)
         [Num.of_Z 100; Num.of_Z 50];
     BaseStrategy.exposure_manager :=
       ExposureManager.init no_exposure_config (Num.of_Z 100000) |}.

(** A trader that holds 10 shares bought at 50. *)
Definition holder : PaperTrader.t :=
  (PaperTrader.execute_order (quote_at (Num.of_Z 50)) (fresh_trader (Num.of_Z 100000))
     (market_order "BUY" 10) 0%Z).1.



(** A backtester without slippage and commission. *)
Definition frictionless : Backtester.t :=
  Backtester.init (Num.of_Z 100000) 0 0 (PositionSizer.init None None)
    no_drawdown_config no_exposure_config.

(** A strategy that asks to exit whenever a position is open and to
    enter with 1000 whenever none is. *)
Definition churner : Backtester.Strategy :=
  {| Backtester.should_exit := λ _ _ _, Backtester.mkExit true "Signal";
     Backtester.should_enter :=
       λ _ _ _, Backtester.mkEntry true (Backtester.SizeNum (Num.of_Z 1000)) |}.

Definition two_bars : list Bar :=
  [mkBar 1%Z (Num.of_Z 100); mkBar 2%Z (Num.of_Z 110)].

(** The state of the sample run after its first bar. *)
Definition after_first_bar : Backtester.t :=
  Backtester.process_bar churner "AAPL" 0%Z (Backtester.reset frictionless)
    [mkBar 1%Z (Num.of_Z 100)] (mkBar 1%Z (Num.of_Z 100)).

(** A backtester with the default frictions: a commission of 0.005 per
    share and 5 basis points of slippage. *)
Definition default_backtester : Backtester.t :=
  Backtester.init (Num.of_Z 100000) (Num.dec 5 1000) (Num.of_Z 5)
    (PositionSizer.init None None) no_drawdown_config no_exposure_config.

(** A strategy that enters with 1000 and never asks to exit. *)
Definition buyer : Backtester.Strategy :=
  {| Backtester.should_exit := λ _ _ _, Backtester.mkExit false "";
     Backtester.should_enter :=
       λ _ _ _, Backtester.mkEntry true (Backtester.SizeNum (Num.of_Z 1000)) |}.

Definition one_bar : list Bar := [mkBar 1%Z (Num.of_Z 100)].

(** The default backtester after the one bar, on which the buyer
    entered, and after the whole run, which closes the position. *)
Definition buyer_after_bar : Backtester.t :=
  Backtester.process_bar buyer "AAPL" 0%Z (Backtester.reset default_backtester)
    one_bar (mkBar 1%Z (Num.of_Z 100)).

Definition buyer_run : Backtester.t :=
  Backtester.run_backtest buyer "AAPL" one_bar 0%Z default_backtester.

(** The holder sees a price of 60, then buys 10 more at a quote of 60. *)
Definition holder_ticked : PaperTrader.t :=
  (PaperTrader.process_market_data holder "AAPL"
     (PaperTrader.mkQuote (Some (Num.of_Z 60)))).1.

Definition holder_averaged : PaperTrader.t :=
  (PaperTrader.execute_order (quote_at (Num.of_Z 60)) holder_ticked
     (market_order "BUY" 10) 1%Z).1.


(** A short paper-trading session: buy 10, see a price, sell 5. *)
Definition sample_session : list PaperTrader.event :=
  [PaperTrader.Submit (market_order "BUY" 10) 1%Z;
   PaperTrader.Tick "AAPL" (PaperTrader.mkQuote (Some (Num.of_Z 60)));
   PaperTrader.Submit (market_order "SELL" 5) 2%Z].

(** * Properties *)

(** Closes a goal between closed terms by evaluating its decision
    procedure. *)
Ltac by_evaluation :=
  apply (bool_decide_eq_true_1 _); vm_compute; reflexivity.

(** Refutes a closed decidable proposition the same way. *)
Ltac refute_by_evaluation :=
  apply (bool_decide_eq_false_1 _); vm_compute; reflexivity.

(** ** The kill switch *)

Section KillSwitch.
Import DrawdownController.

Lemma update_equity_kill_switch (dc : t) (e : Qc) :
  kill_switch_active (update_equity dc e) = kill_switch_active dc.
Proof. reflexivity. Qed.

Lemma activate_kill_switch_keeps (dc : t) :
  kill_switch_active dc = true →
  kill_switch_active (fst (activate_kill_switch dc)) = true.
Proof.
  intros Hon. unfold activate_kill_switch.
  destruct (equity_curve dc); [done|].
  by case (Num.gtb _ _).
Qed.

Lemma exec_clears_only_by_reset (dc : t) (c : call) :
  kill_switch_active dc = true →
  kill_switch_active (exec dc c) = false → c = ResetKillSwitch.
Proof.
  intros Hon Hoff. destruct c; simpl in Hoff; try congruence.
  rewrite activate_kill_switch_keeps in Hoff; congruence.
Qed.

Lemma exec_all_keeps (cs : list call) (dc : t) :
  kill_switch_active dc = true →
  forallb (λ c, negb (is_reset c)) cs = true →
  kill_switch_active (exec_all dc cs) = true.
Proof.
  revert dc. induction cs as [|c cs IH]; intros dc Hon Hcs; [done|].
  simpl in Hcs. apply andb_prop in Hcs as [Hc Hcs].
  apply IH; [|done].
  destruct (kill_switch_active (exec dc c)) eqn:E; [done|].
  apply exec_clears_only_by_reset in E; [|done]. by subst c.
Qed.

Lemma update_all_keeps (es : list Qc) (dc : t) :
  kill_switch_active (foldl update_equity dc es) = kill_switch_active dc.
Proof. revert dc. induction es as [|e es IH]; intros dc; [done|]. simpl. by rewrite IH. Qed.

(** C4.  Once the kill switch is active it stays active across any list
    of [update_equity] calls, whatever the equity values, and across any
    sequence of calls of the class that contains no [reset_kill_switch];
    a call that turns it off is [reset_kill_switch], and that call does
    turn it off. *)
Theorem kill_switch_sticky (dc : t) (es : list Qc) (cs : list call) :
  is_kill_switch_active dc = true →
  is_kill_switch_active (foldl update_equity dc es) = true
  ∧ (forallb (λ c, negb (is_reset c)) cs = true →
     is_kill_switch_active (exec_all dc cs) = true)
  ∧ (∀ c, is_kill_switch_active (exec dc c) = false → c = ResetKillSwitch)
  ∧ is_kill_switch_active (reset_kill_switch (foldl update_equity dc es)) = false.
Proof.
  unfold is_kill_switch_active. intros Hon. repeat split.
  - by rewrite update_all_keeps.
  - by apply exec_all_keeps.
  - intros c. by apply exec_clears_only_by_reset.
Qed.

Lemma kill_switch_sticky_witness :
  is_kill_switch_active tripped = true
  ∧ is_kill_switch_active
      (foldl update_equity tripped [Num.of_Z 100; Num.of_Z 250]) = true.
Proof.
  assert (Hon : is_kill_switch_active tripped = true) by (vm_compute; reflexivity).
  split; [exact Hon|].
  exact (proj1 (kill_switch_sticky tripped [Num.of_Z 100; Num.of_Z 250] [] Hon)).
Defined.

End KillSwitch.

(** ** The entry gate *)

Section EntryGate.
Import BaseStrategy.

Lemma all_values_count (c : Checks) :
  all_values c = bool_decide (passed_count c = 6%nat).
Proof. by destruct c as [[] [] [] [] [] []]. Qed.

(** The layers of the decision are the answers of the six checks. *)
Lemma should_enter_checks (s : t) (symbol : string) (df : list Bar)
    (direction : string) (required_regime : option string) :
  let d := should_enter s symbol df direction required_regime in
  fundamentals (checks d) = check_fundamentals s symbol direction
  ∧ sentiment (checks d) = check_sentiment s symbol direction
  ∧ intermarket (checks d) = check_intermarket s symbol direction
  ∧ technical (checks d)
    = default false (signal (check_technical_entry (collaborators s) df)).
Proof. done. Qed.

(** C5.  [should_enter] asks each of the six layers (regime,
    fundamentals, sentiment, intermarket, technical, risk) on its
    arguments, records the six answers in [checks], and decides on their
    number alone: without [require_all_layers] it enters exactly when at
    least 4 of the 6 answers are true (so it enters on exactly 4 and does
    not on exactly 3), with [require_all_layers] exactly when all 6
    are. *)
Theorem should_enter_decision_rule (s : t) (symbol : string) (df : list Bar)
    (direction : string) (required_regime : option string) :
  let d := should_enter s symbol df direction required_regime in
  let asked :=
    PositionSizer.position_size
      (PositionSizer.calculate_position_size (position_sizer s)
         (ExposureManager.get_account_value (exposure_manager s))
         (Some (Num.dec 1 100)) (Num.dec 5 100)) in
  let regime_ok :=
    if regime_required required_regime then check_regime s required_regime
    else true in
  let fundamentals_ok := check_fundamentals s symbol direction in
  let sentiment_ok := check_sentiment s symbol direction in
  let intermarket_ok := check_intermarket s symbol direction in
  let technical_ok :=
    default false (signal (check_technical_entry (collaborators s) df)) in
  let risk_ok := check_risk_rules s symbol asked in
  let passed :=
    length (filter (λ b, b = true)
              [regime_ok; fundamentals_ok; sentiment_ok; intermarket_ok;
               technical_ok; risk_ok]) in
  checks d =
    {| regime := regime_ok; fundamentals := fundamentals_ok;
       sentiment := sentiment_ok; intermarket := intermarket_ok;
       technical := technical_ok; risk := risk_ok |}
  ∧ passed_count (checks d) = passed
  ∧ enter d =
      (if require_all_layers s
       then bool_decide (passed = 6%nat)
       else bool_decide (4 ≤ passed)%nat)
  ∧ (if require_all_layers s then True
     else (passed = 4%nat → enter d = true)
          ∧ (passed = 3%nat → enter d = false)).
Proof.
  intros d asked regime_ok fundamentals_ok sentiment_ok intermarket_ok
    technical_ok risk_ok passed.
  assert (Hchecks : checks d =
            {| regime := regime_ok; fundamentals := fundamentals_ok;
               sentiment := sentiment_ok; intermarket := intermarket_ok;
               technical := technical_ok; risk := risk_ok |}) by done.
  assert (Hcount : passed_count (checks d) = passed) by (by rewrite Hchecks).
  assert (Hrule : enter d =
            (if require_all_layers s
             then bool_decide (passed = 6%nat)
             else bool_decide (4 ≤ passed)%nat)).
  { rewrite <- Hcount. subst d. unfold should_enter. simpl.
    destruct (require_all_layers s); [apply all_values_count|done]. }
  split; [exact Hchecks|]. split; [exact Hcount|]. split; [exact Hrule|].
  rewrite Hrule. destruct (require_all_layers s); [done|].
  split; intros ->; by vm_compute.
Qed.

Example should_enter_on_four :
  let d := should_enter (quorum_strategy true) "AAPL" [] "LONG" None in
  passed_count (checks d) = 4%nat ∧ enter d = true.
Proof. by vm_compute. Qed.

Example should_not_enter_on_three :
  let d := should_enter (quorum_strategy false) "AAPL" [] "LONG" None in
  passed_count (checks d) = 3%nat ∧ enter d = false.
Proof. by vm_compute. Qed.

End EntryGate.

(** ** Account re-initialisation *)

Section Reinitialise.
Import PaperTrader.

(** C10.  [initialize_account] resets cash (to the initial capital, which
    a truthy argument replaces), positions, orders and trades and the
    account value of the exposure manager; the drawdown controller is the
    same object in the same state, so its equity curve, its peak and its
    kill switch persist. *)
Theorem initialize_account_keeps_drawdown_state (pt : t) (arg : option Qc) :
  let pt' := initialize_account pt arg in
  initial_capital pt'
    = (if Num.truthy arg then default (initial_capital pt) arg else initial_capital pt)
  ∧ cash pt' = initial_capital pt'
  ∧ positions pt' = ∅
  ∧ orders pt' = []
  ∧ trades pt' = []
  ∧ ExposureManager.account_value (exposure_manager pt') = initial_capital pt'
  ∧ drawdown_controller pt' = drawdown_controller pt
  ∧ DrawdownController.equity_curve (drawdown_controller pt')
    = DrawdownController.equity_curve (drawdown_controller pt)
  ∧ DrawdownController.peak_equity (drawdown_controller pt')
    = DrawdownController.peak_equity (drawdown_controller pt)
  ∧ DrawdownController.is_kill_switch_active (drawdown_controller pt')
    = DrawdownController.is_kill_switch_active (drawdown_controller pt).
Proof. by repeat split. Qed.

End Reinitialise.

(** ** The drawdown check *)

Section DrawdownCheck.
Import DrawdownController.

Lemma expanding_max_from_length (xs : list Qc) (p : Qc) :
  length (expanding_max_from p xs) = length xs.
Proof. revert p. induction xs as [|x xs IH]; intros p; simpl; [done|]. by rewrite IH. Qed.

Lemma expanding_max_length (xs : list Qc) :
  length (expanding_max xs) = length xs.
Proof. destruct xs; simpl; [done|]. by rewrite expanding_max_from_length. Qed.

Lemma iloc_last_zip_with (f : Qc → Qc → Qc) (xs ys : list Qc) :
  length xs = length ys → xs ≠ [] →
  iloc_last (zip_with f xs ys) = f (iloc_last xs) (iloc_last ys).
Proof.
  unfold iloc_last. revert ys.
  induction xs as [|x xs IH]; intros ys Hlen Hne; [done|].
  destruct ys as [|y ys]; [done|]. simpl in Hlen.
  destruct xs as [|x' xs]; destruct ys as [|y' ys]; try done.
  change (zip_with f (x :: x' :: xs) (y :: y' :: ys))
    with (f x y :: f x' y' :: zip_with f xs ys).
  rewrite !last_cons_cons.
  apply (IH (y' :: ys)); [simpl in *; lia|done].
Qed.

(** On a curve of two or more points the value [check_max_drawdown]
    compares with the threshold is 100 times the drawdown fraction. *)
Lemma current_drawdown_pct_is_percent (dc : t) :
  (2 ≤ length (equity_curve dc))%nat →
  get_current_drawdown_pct (calculate_drawdown dc None) 0
  = spec_current_drawdown (equity_curve dc) * Num.of_Z 100.
Proof.
  intros Hlen. unfold calculate_drawdown, spec_current_drawdown. simpl.
  rewrite bool_decide_eq_false_2 by lia. simpl.
  assert (Hne : equity_curve dc ≠ []) by (intros E; rewrite E in Hlen; simpl in Hlen; lia).
  rewrite iloc_last_zip_with.
  - rewrite iloc_last_zip_with; [|by rewrite expanding_max_length|done].
    rewrite Qcabs_Qcmult. f_equal.
  - by rewrite length_zip_with, expanding_max_length, Nat.min_id.
  - destruct (equity_curve dc) as [|x [|y l]]; simpl in *; try done; lia.
Qed.

Lemma check_max_drawdown_compares_percent (dc : t) :
  (2 ≤ length (equity_curve dc))%nat →
  check_max_drawdown dc
  = negb (Num.gtb (spec_current_drawdown (equity_curve dc) * Num.of_Z 100)
                  (max_drawdown_pct dc)).
Proof.
  intros Hlen. unfold check_max_drawdown.
  rewrite current_drawdown_pct_is_percent by done.
  destruct (equity_curve dc); [simpl in Hlen; lia|].
  by case (Num.gtb _ _).
Qed.

(** C2.  At the curve [100, 99] with the default threshold 0.15 the
    drawdown fraction is 0.01, which does not exceed the threshold, and
    yet [check_max_drawdown] answers [False]: the code compares the
    drawdown in percent (1.0) with the threshold given as a fraction. *)
Theorem check_max_drawdown_mixes_units :
  max_drawdown_pct one_percent_down = Num.dec 15 100
  ∧ spec_current_drawdown (equity_curve one_percent_down) = Num.dec 1 100
  ∧ ¬ (max_drawdown_pct one_percent_down
       < spec_current_drawdown (equity_curve one_percent_down))
  ∧ get_current_drawdown_pct (calculate_drawdown one_percent_down None) 0 = 1
  ∧ check_max_drawdown one_percent_down = false.
Proof.
  split; [by_evaluation|]. split; [by_evaluation|].
  split; [|split; by_evaluation].
  apply (bool_decide_eq_false_1 _). vm_compute. reflexivity.
Qed.

End DrawdownCheck.

(** ** Comparisons *)

Section Comparisons.

Lemma gtb_true (x y : Qc) : Num.gtb x y = true ↔ y < x.
Proof. unfold Num.gtb. apply bool_decide_eq_true. Qed.

Lemma gtb_false (x y : Qc) : Num.gtb x y = false ↔ x ≤ y.
Proof.
  unfold Num.gtb. rewrite bool_decide_eq_false. symmetry. apply Qcle_ngt.
Qed.

Lemma leb_true (x y : Qc) : Num.leb x y = true ↔ x ≤ y.
Proof. unfold Num.leb. apply bool_decide_eq_true. Qed.

Lemma leb_false (x y : Qc) : Num.leb x y = false ↔ y < x.
Proof.
  unfold Num.leb. rewrite bool_decide_eq_false. symmetry. apply Qclt_nge.
Qed.

Lemma geb_true (x y : Qc) : Num.geb x y = true ↔ y ≤ x.
Proof. unfold Num.geb. apply bool_decide_eq_true. Qed.

Lemma geb_false (x y : Qc) : Num.geb x y = false ↔ x < y.
Proof.
  unfold Num.geb. rewrite bool_decide_eq_false. symmetry. apply Qclt_nge.
Qed.

Lemma of_Z_one : Num.of_Z 1 = 1.
Proof. by_evaluation. Qed.

Lemma of_Z_le (a b : Z) : (a ≤ b)%Z → Num.of_Z a ≤ Num.of_Z b.
Proof.
  intros H. unfold Qcle, Num.of_Z, Qc_of_Z. simpl. by rewrite <- Zle_Qle.
Qed.

Lemma string_eqb_false (a b : string) : String.eqb a b = false ↔ a ≠ b.
Proof. apply String.eqb_neq. Qed.

End Comparisons.

(** ** Rejected orders *)

Section Rejections.
Import PaperTrader.

Lemma _execute_buy_rejected (pt pt' : t) (symbol : string) (q : Z) (p : Qc)
    (now : Time) (reason : string) :
  _execute_buy pt symbol q p now = (pt', Returned (REJECTED reason)) →
  pt' = pt ∧ reason = "Insufficient cash".
Proof.
  unfold _execute_buy. intros H.
  repeat case_match; simplify_eq; done.
Qed.

Lemma _execute_sell_rejected (pt pt' : t) (symbol : string) (q : Z) (p : Qc)
    (now : Time) (reason : string) :
  _execute_sell pt symbol q p now = (pt', Returned (REJECTED reason)) →
  pt' = pt ∧ (reason = "No position" ∨ reason = "Insufficient shares").
Proof.
  unfold _execute_sell. intros H.
  repeat case_match; simplify_eq; auto.
Qed.

Lemma execute_order_rejected (fetch : string → string → Quote) (pt pt' : t)
    (order : Order) (now : Time) (reason : string) :
  execute_order fetch pt order now = (pt', Returned (REJECTED reason)) →
  pt' = pt.
Proof.
  unfold execute_order. intros H.
  repeat case_match; simplify_eq;
    try (by apply _execute_buy_rejected in H as [-> _]);
    try (by apply _execute_sell_rejected in H as [-> _]);
    done.
Qed.

(** C7.  A rejection is a returned [REJECTED] result, never an
    exception, and the trader that comes back is the trader that went in:
    cash, positions, orders and trades are untouched.  This holds for
    every rejected result of [execute_order], and the four listed causes
    (cost above cash, quantity above the held shares, an unsupported
    order type, a limit that is not met) do produce such a result.  The
    entry of the backtester returns the object unchanged when the total
    cost exceeds the cash. *)
Theorem rejection_changes_nothing (fetch : string → string → Quote) (pt : t)
    (order : Order) (now : Time) (bt : Backtester.t) (symbol : string)
    (price position_size : Qc) :
  (∀ pt' reason,
     execute_order fetch pt order now = (pt', Returned (REJECTED reason)) →
     pt' = pt
     ∧ cash pt' = cash pt ∧ positions pt' = positions pt
     ∧ orders pt' = orders pt ∧ trades pt' = trades pt)
  ∧ (∀ q p, cash pt < Num.of_Z q * p →
       _execute_buy pt symbol q p now
       = (pt, Returned (REJECTED "Insufficient cash")))
  ∧ (∀ q p pos, positions pt !! symbol = Some pos → (shares pos < q)%Z →
       _execute_sell pt symbol q p now
       = (pt, Returned (REJECTED "Insufficient shares")))
  ∧ (order_type order ≠ "MARKET" → order_type order ≠ "LIMIT" →
     execute_order fetch pt order now
     = (pt, Returned (REJECTED "Unsupported order type")))
  ∧ (order_type order = "LIMIT" →
     ¬ (order_side order = "BUY"
        ∧ quoted_price fetch order ≤ order_limit fetch order)
     ∧ ¬ (order_side order = "SELL"
          ∧ order_limit fetch order ≤ quoted_price fetch order) →
     execute_order fetch pt order now
     = (pt, Returned (REJECTED "Limit price not met")))
  ∧ (Backtester.cash bt < Backtester.entry_total_cost bt price position_size →
     Backtester._execute_entry bt symbol price position_size now = bt).
Proof.
  split; [|split; [|split; [|split; [|split]]]].
  - intros pt' reason H. by apply execute_order_rejected in H as ->.
  - intros q p Hcost. unfold _execute_buy.
    by rewrite (proj2 (gtb_true _ _) Hcost).
  - intros q p pos Hpos Hq. unfold _execute_sell. rewrite Hpos.
    by rewrite bool_decide_eq_true_2.
  - intros Hm Hl. unfold execute_order.
    apply String.eqb_neq in Hm, Hl. by rewrite Hm, Hl.
  - intros Hl [Hbuy Hsell]. unfold execute_order. rewrite Hl. simpl.
    destruct (String.eqb _ "BUY" && Num.leb _ _) eqn:E1.
    { apply andb_prop in E1 as [E1a E1b]. exfalso. apply Hbuy.
      split; [by apply String.eqb_eq|by apply leb_true]. }
    destruct (String.eqb _ "SELL" && Num.geb _ _) eqn:E2; [|done].
    apply andb_prop in E2 as [E2a E2b]. exfalso. apply Hsell.
    split; [by apply String.eqb_eq|by apply geb_true].
  - intros Hcost. unfold Backtester._execute_entry.
    unfold Backtester.entry_total_cost in Hcost.
    by rewrite (proj2 (gtb_true _ _) Hcost).
Qed.

Lemma rejection_changes_nothing_witness :
  execute_order (quote_at (Num.of_Z 52)) (fresh_trader (Num.of_Z 1000))
    (limit_order "BUY" 10 (Num.of_Z 50)) 0%Z
  = (fresh_trader (Num.of_Z 1000), Returned (REJECTED "Limit price not met")).
Proof.
  apply (rejection_changes_nothing (quote_at (Num.of_Z 52))
           (fresh_trader (Num.of_Z 1000)) (limit_order "BUY" 10 (Num.of_Z 50)) 0%Z
           (Backtester.init 0 0 0 (PositionSizer.init None None)
              no_drawdown_config no_exposure_config) "AAPL" 0 0).
  - reflexivity.
  - split.
    + intros [_ H]. revert H. refute_by_evaluation.
    + intros [H _]. discriminate H.
Defined.

End Rejections.

(** ** Orders without a price *)

Section UnpricedOrders.
Import PaperTrader.

(** A market buy against a quote without a usable price is executed at
    price 0 whenever the trader is not overdrawn. *)
Lemma market_buy_without_price_fills (fetch : string → string → Quote) (pt : t)
    (order : Order) (now : Time) :
  order_type order = "MARKET" →
  order_side order = "BUY" →
  (∀ market, default 0 (q_price (fetch (o_symbol order) market)) = 0) →
  0 ≤ cash pt →
  positions pt !! o_symbol order = None →
  (execute_order fetch pt order now).2 = Returned (FILLED 0 None)
  ∧ entry_price <$> positions (execute_order fetch pt order now).1 !! o_symbol order
    = Some 0.
Proof.
  intros Ht Hs Hq Hcash Hpos. unfold execute_order, quoted_price.
  rewrite Ht, Hs, Hq. simpl. unfold _execute_buy.
  rewrite Qcmult_0_r. rewrite (proj2 (gtb_false _ _) Hcash). simpl.
  rewrite Hpos. simpl. by rewrite lookup_insert_eq.
Qed.

(** C8.  A market buy of 10 shares with a quote that has no price (the
    empty dictionary) or the price 0 is FILLED at execution price 0: a
    position with entry price 0 is opened and the cash is not touched.
    On the same inputs the preview of the order answers "Could not get
    current price". *)
Theorem unpriced_order_fills_at_zero :
  execute_order no_quote (fresh_trader (Num.of_Z 100000)) (market_order "BUY" 10) 0%Z
  = execute_order (quote_at 0) (fresh_trader (Num.of_Z 100000)) (market_order "BUY" 10) 0%Z
  ∧ (execute_order no_quote (fresh_trader (Num.of_Z 100000))
       (market_order "BUY" 10) 0%Z).2
    = Returned (FILLED 0 None)
  ∧ positions (execute_order no_quote (fresh_trader (Num.of_Z 100000))
                 (market_order "BUY" 10) 0%Z).1 !! "AAPL"
    = Some (mkPosition 10 0 0%Z None None None)
  ∧ cash (execute_order no_quote (fresh_trader (Num.of_Z 100000))
            (market_order "BUY" 10) 0%Z).1
    = Num.of_Z 100000
  ∧ get_execution_preview no_quote (fresh_trader (Num.of_Z 100000))
      (market_order "BUY" 10)
    = PreviewError "Could not get current price".
Proof.
  split; [reflexivity|]. split; [by_evaluation|]. split; [by_evaluation|].
  split; by_evaluation.
Qed.

(** After such a fill the next price update of the symbol raises: the
    unrealised return divides by the entry price. *)
Example tick_after_zero_fill_raises :
  (process_market_data
     (execute_order no_quote (fresh_trader (Num.of_Z 100000))
        (market_order "BUY" 10) 0%Z).1
     "AAPL" (mkQuote (Some (Num.of_Z 150)))).2
  = Raised ZeroDivisionError.
Proof. by_evaluation. Qed.

End UnpricedOrders.

(** ** Limit orders *)

Section LimitOrders.
Import PaperTrader.

Lemma _execute_buy_filled_price (pt : t) (symbol : string) (q : Z) (p : Qc)
    (now : Time) (price : Qc) (pnl : option Qc) :
  (_execute_buy pt symbol q p now).2 = Returned (FILLED price pnl) → price = p.
Proof.
  unfold _execute_buy. intros H.
  repeat case_match; simpl in H; by simplify_eq.
Qed.

Lemma _execute_sell_filled_price (pt : t) (symbol : string) (q : Z) (p : Qc)
    (now : Time) (price : Qc) (pnl : option Qc) :
  (_execute_sell pt symbol q p now).2 = Returned (FILLED price pnl) → price = p.
Proof.
  unfold _execute_sell. intros H.
  repeat case_match; simpl in H; by simplify_eq.
Qed.

(** A buy fills exactly when the cash covers the cost (and the division
    by the new share total is defined). *)
Lemma _execute_buy_filled_iff (pt : t) (symbol : string) (q : Z) (p : Qc) (now : Time) :
  is_filled (_execute_buy pt symbol q p now).2
  ↔ Num.of_Z q * p ≤ cash pt
    ∧ ∀ pos, positions pt !! symbol = Some pos → (shares pos + q)%Z ≠ 0%Z.
Proof.
  unfold _execute_buy, is_filled.
  destruct (Num.gtb _ _) eqn:Hc; simpl.
  - apply gtb_true in Hc. split.
    + intros (? & ? & ?). done.
    + intros [Hle _]. by apply Qcle_not_lt in Hle.
  - apply gtb_false in Hc.
    destruct (positions pt !! symbol) as [pos|] eqn:Hpos; simpl.
    + case_bool_decide as Hz; simpl.
      * split; [intros (? & ? & ?); done|]. intros [_ Hnz]. by destruct (Hnz pos).
      * split; [|by eauto]. intros _. split; [done|]. by intros ? [= <-].
    + split; [|by eauto]. intros _. split; [done|]. by intros ? [=].
Qed.

(** A sell fills exactly when a position with enough shares is held. *)
Lemma _execute_sell_filled_iff (pt : t) (symbol : string) (q : Z) (p : Qc) (now : Time) :
  is_filled (_execute_sell pt symbol q p now).2
  ↔ ∃ pos, positions pt !! symbol = Some pos ∧ (q ≤ shares pos)%Z.
Proof.
  unfold _execute_sell, is_filled.
  destruct (positions pt !! symbol) as [pos|] eqn:Hpos; simpl.
  - case_bool_decide as Hq; simpl.
    + split; [intros (? & ? & ?); done|]. intros (pos' & [= <-] & Hle). lia.
    + split; [|by eauto]. intros _. exists pos. split; [done|lia].
  - split; [intros (? & ? & ?); done|]. by intros (? & ? & _).
Qed.

(** The limit is met and the order still is not filled: a limit buy of
    10 shares at 50 with the market at 49 and 100 in cash. *)
Lemma limit_buy_met_but_not_filled :
  quoted_price (quote_at (Num.of_Z 49)) (limit_order "BUY" 10 (Num.of_Z 50))
    ≤ order_limit (quote_at (Num.of_Z 49)) (limit_order "BUY" 10 (Num.of_Z 50))
  ∧ execute_order (quote_at (Num.of_Z 49)) (fresh_trader (Num.of_Z 100))
      (limit_order "BUY" 10 (Num.of_Z 50)) 0%Z
    = (fresh_trader (Num.of_Z 100), Returned (REJECTED "Insufficient cash"))
  ∧ ¬ is_filled (execute_order (quote_at (Num.of_Z 49)) (fresh_trader (Num.of_Z 100))
                   (limit_order "BUY" 10 (Num.of_Z 50)) 0%Z).2.
Proof.
  assert (E : execute_order (quote_at (Num.of_Z 49)) (fresh_trader (Num.of_Z 100))
                (limit_order "BUY" 10 (Num.of_Z 50)) 0%Z
              = (fresh_trader (Num.of_Z 100), Returned (REJECTED "Insufficient cash")))
    by by_evaluation.
  split; [by_evaluation|]. split; [exact E|].
  rewrite E. by intros (? & ? & ?).
Qed.

(** C6 (amended).  For a LIMIT order the limit decides whether the order
    is executed at all: a BUY goes on to [_execute_buy] exactly when the
    market price is at most the limit, a SELL to [_execute_sell] exactly
    when it is at least the limit, both at the limit price; otherwise,
    and for any other side, the result is REJECTED "Limit price not met"
    and the trader is unchanged.  The order is then filled only if the
    ordinary checks pass as well: the cash covers quantity times limit
    for a BUY, a position with at least that many shares is held for a
    SELL.  A fill is always at the limit price. *)
Theorem limit_order_gate (fetch : string → string → Quote) (pt : t)
    (order : Order) (now : Time) :
  order_type order = "LIMIT" →
  let current_price := quoted_price fetch order in
  let limit_price := order_limit fetch order in
  let symbol := o_symbol order in
  let quantity := order_quantity order in
  let result := execute_order fetch pt order now in
  (order_side order = "BUY" →
     (current_price ≤ limit_price →
        result = _execute_buy pt symbol quantity limit_price now)
     ∧ (limit_price < current_price →
        result = (pt, Returned (REJECTED "Limit price not met")))
     ∧ (is_filled result.2
        ↔ current_price ≤ limit_price
          ∧ Num.of_Z quantity * limit_price ≤ cash pt
          ∧ ∀ pos, positions pt !! symbol = Some pos →
                   (shares pos + quantity)%Z ≠ 0%Z))
  ∧ (order_side order = "SELL" →
     (limit_price ≤ current_price →
        result = _execute_sell pt symbol quantity limit_price now)
     ∧ (current_price < limit_price →
        result = (pt, Returned (REJECTED "Limit price not met")))
     ∧ (is_filled result.2
        ↔ limit_price ≤ current_price
          ∧ ∃ pos, positions pt !! symbol = Some pos ∧ (quantity ≤ shares pos)%Z))
  ∧ (order_side order ≠ "BUY" → order_side order ≠ "SELL" →
     result = (pt, Returned (REJECTED "Limit price not met")))
  ∧ (∀ price pnl, result.2 = Returned (FILLED price pnl) → price = limit_price).
Proof.
  intros Hl cur lim symbol quantity result.
  assert (Hbuy : order_side order = "BUY" →
            result = if Num.leb cur lim
                     then _execute_buy pt symbol quantity lim now
                     else (pt, Returned (REJECTED "Limit price not met"))).
  { intros Hs. subst result. unfold execute_order. by rewrite Hl, Hs. }
  assert (Hsell : order_side order = "SELL" →
            result = if Num.geb cur lim
                     then _execute_sell pt symbol quantity lim now
                     else (pt, Returned (REJECTED "Limit price not met"))).
  { intros Hs. subst result. unfold execute_order. by rewrite Hl, Hs. }
  assert (Hother : order_side order ≠ "BUY" → order_side order ≠ "SELL" →
            result = (pt, Returned (REJECTED "Limit price not met"))).
  { intros Hb Hs. subst result. unfold execute_order. rewrite Hl.
    apply String.eqb_neq in Hb, Hs. by rewrite Hb, Hs. }
  split; [|split; [|split]].
  - intros Hs. rewrite (Hbuy Hs). split; [|split].
    + intros Hle. by rewrite (proj2 (leb_true _ _) Hle).
    + intros Hlt. by rewrite (proj2 (leb_false _ _) Hlt).
    + destruct (Num.leb cur lim) eqn:E.
      * apply leb_true in E. rewrite _execute_buy_filled_iff. tauto.
      * apply leb_false in E. split.
        -- by intros (? & ? & ?).
        -- intros [Hle _]. by apply Qcle_not_lt in Hle.
  - intros Hs. rewrite (Hsell Hs). split; [|split].
    + intros Hle. by rewrite (proj2 (geb_true _ _) Hle).
    + intros Hlt. by rewrite (proj2 (geb_false _ _) Hlt).
    + destruct (Num.geb cur lim) eqn:E.
      * apply geb_true in E. rewrite _execute_sell_filled_iff. tauto.
      * apply geb_false in E. split.
        -- by intros (? & ? & ?).
        -- intros [Hle _]. by apply Qcle_not_lt in Hle.
  - exact Hother.
  - intros price pnl Hres.
    destruct (decide (order_side order = "BUY")) as [Hs|Hb].
    { rewrite (Hbuy Hs) in Hres. destruct (Num.leb cur lim); [|done].
      by apply _execute_buy_filled_price in Hres. }
    destruct (decide (order_side order = "SELL")) as [Hs|Hs].
    { rewrite (Hsell Hs) in Hres. destruct (Num.geb cur lim); [|done].
      by apply _execute_sell_filled_price in Hres. }
    by rewrite (Hother Hb Hs) in Hres.
Qed.

(** The example of the specification: a limit buy at 50 is rejected with
    the market at 52 and filled at 50, not 49, with the market at 49. *)
Lemma limit_order_gate_witness :
  order_type (limit_order "BUY" 10 (Num.of_Z 50)) = "LIMIT"
  ∧ ∀ price pnl,
      (execute_order (quote_at (Num.of_Z 49)) (fresh_trader (Num.of_Z 1000))
         (limit_order "BUY" 10 (Num.of_Z 50)) 0%Z).2
      = Returned (FILLED price pnl) →
      price = order_limit (quote_at (Num.of_Z 49)) (limit_order "BUY" 10 (Num.of_Z 50)).
Proof.
  split; [reflexivity|].
  apply (limit_order_gate (quote_at (Num.of_Z 49)) (fresh_trader (Num.of_Z 1000))
           (limit_order "BUY" 10 (Num.of_Z 50)) 0%Z).
  reflexivity.
Defined.

Example limit_buy_above_limit_rejected :
  execute_order (quote_at (Num.of_Z 52)) (fresh_trader (Num.of_Z 1000))
    (limit_order "BUY" 10 (Num.of_Z 50)) 0%Z
  = (fresh_trader (Num.of_Z 1000), Returned (REJECTED "Limit price not met")).
Proof. by_evaluation. Qed.

Example limit_buy_below_limit_filled_at_limit :
  (execute_order (quote_at (Num.of_Z 49)) (fresh_trader (Num.of_Z 1000))
     (limit_order "BUY" 10 (Num.of_Z 50)) 0%Z).2
  = Returned (FILLED (Num.of_Z 50) None).
Proof. by_evaluation. Qed.

End LimitOrders.

(** ** Round trips *)

Section RoundTrips.
Import PaperTrader PrimFloat.







End RoundTrips.

(** ** Equity *)

Section Equity.

(** The accumulator loop of both [_calculate_equity] methods adds up to
    the starting value plus the sum of the terms. *)
Lemma accumulate_is_sum {A} (g : A → Qc) (c : Qc) (m : gmap string A) :
  map_fold (λ _ x acc, acc + g x) c m
  = c + Num.sum ((λ kv, g kv.2) <$> map_to_list m).
Proof.
  rewrite map_fold_foldr.
  induction (map_to_list m) as [|[k x] l IH].
  - change (c = c + 0). ring.
  - change (foldr (uncurry (λ (_ : string) x acc, acc + g x)) c l + g x
            = c + (g x + Num.sum ((λ kv, g kv.2) <$> l))).
    rewrite IH. ring.
Qed.

Lemma paper_equity (pt : PaperTrader.t) :
  PaperTrader._calculate_equity pt
  = PaperTrader.cash pt + PaperTrader.spec_position_value pt.
Proof.
  apply (accumulate_is_sum
           (λ p, Num.of_Z (PaperTrader.shares p) * PaperTrader.mark_price p)).
Qed.

Lemma backtest_equity (bt : Backtester.t) (current_price : Qc) :
  Backtester._calculate_equity bt current_price
  = Backtester.cash bt + Backtester.spec_position_value bt current_price.
Proof.
  apply (accumulate_is_sum (λ p, Num.of_Z (Backtester.shares p) * current_price)).
Qed.

(** The equity last reported is not the cash plus the marked positions
    after every event.  The default backtester marks the account at the
    head of a bar: after the entry of that bar (9 shares at 100.05 and a
    commission of 0.045) the curve, the drawdown controller and the
    exposure manager still show 100000 against 99999.505, and after the
    closing exit of the run the final equity is still 100000 against a
    cash balance of 99999.01 without positions.  In the paper trader a
    buy that adds to a position drops its stored price: the holder saw
    a price of 60 and bought 10 more at 60, and the equity is computed
    at the averaged entry price of 55, 100000 against 100100. *)
Lemma reported_equity_is_stale :
  (list.last (Backtester.equity_curve buyer_after_bar) = Some (Num.of_Z 100000)
   ∧ list.last (DrawdownController.equity_curve
                  (Backtester.drawdown_controller buyer_after_bar))
     = Some (Num.of_Z 100000)
   ∧ ExposureManager.account_value (Backtester.exposure_manager buyer_after_bar)
     = Num.of_Z 100000
   ∧ Backtester.positions buyer_after_bar !! "AAPL"
     = Some (Backtester.mkPosition 9 (Num.dec 10005 100) 1%Z)
   ∧ Backtester.cash buyer_after_bar
     + Backtester.spec_position_value buyer_after_bar (Num.of_Z 100)
     = Num.dec 99999505 1000
   ∧ list.last (Backtester.equity_curve buyer_after_bar)
     ≠ Some (Backtester.cash buyer_after_bar
             + Backtester.spec_position_value buyer_after_bar (Num.of_Z 100)))
  ∧ (Backtester.final_equity buyer_run = Num.of_Z 100000
     ∧ Backtester.positions buyer_run = ∅
     ∧ Backtester.cash buyer_run = Num.dec 9999901 100
     ∧ Backtester.final_equity buyer_run
       ≠ Backtester.cash buyer_run
         + Backtester.spec_position_value buyer_run (Num.of_Z 100))
  ∧ (PaperTrader.positions holder_ticked !! "AAPL"
     = Some (PaperTrader.mkPosition 10 (Num.of_Z 50) 0%Z (Some (Num.of_Z 60))
               (Some (Num.of_Z 100)) (Some (Num.of_Z 20)))
     ∧ PaperTrader.positions holder_averaged !! "AAPL"
       = Some (PaperTrader.mkPosition 20 (Num.of_Z 55) 0%Z None None None)
     ∧ PaperTrader.cash holder_averaged = Num.of_Z 98900
     ∧ PaperTrader._calculate_equity holder_averaged = Num.of_Z 100000
     ∧ PaperTrader._calculate_equity holder_averaged
       ≠ PaperTrader.cash holder_averaged + Num.of_Z 20 * Num.of_Z 60).
Proof.
  split; [|split].
  - split; [by_evaluation|]. split; [by_evaluation|]. split; [by_evaluation|].
    split; [by_evaluation|]. split; [by_evaluation|]. refute_by_evaluation.
  - split; [by_evaluation|]. split; [by_evaluation|]. split; [by_evaluation|].
    refute_by_evaluation.
  - split; [by_evaluation|]. split; [by_evaluation|]. split; [by_evaluation|].
    split; [by_evaluation|]. refute_by_evaluation.
Qed.

(** C1 (amended).  After any sequence of events the equity either engine
    computes is the cash plus the sum over the open positions of shares
    times the mark: the position's stored [current_price], or its entry
    price when none is stored, in the paper trader; the bar close passed
    in, in the backtester.  That value is reported at price updates
    only.  A price update of the paper trader stores the price in the
    position of its symbol, pushes the equity to the drawdown controller
    and the exposure manager, and the account summary shows it; an order
    leaves the two risk objects as they were.  The backtester appends
    the equity to the curve and pushes it to the two risk objects when
    it marks the account at the head of a bar; an entry or an exit
    leaves the curve and the risk objects as they were. *)
Theorem equity_is_cash_plus_marked_positions
    (fetch : string → string → PaperTrader.Quote) (pt : PaperTrader.t)
    (evs : list PaperTrader.event) (now : Time) (bt : Backtester.t)
    (bevs : list Backtester.event) (date : Time) (current_price : Qc) :
  let pt' := PaperTrader.run fetch pt evs in
  let bt' := Backtester.run now bt bevs in
  let marked := Backtester.mark_to_market bt' date current_price in
  PaperTrader._calculate_equity pt'
  = PaperTrader.cash pt' + PaperTrader.spec_position_value pt'
  ∧ (∀ symbol data ticked,
       PaperTrader.process_market_data pt' symbol data
       = (ticked, PaperTrader.Returned ()) →
       list.last (DrawdownController.equity_curve (PaperTrader.drawdown_controller ticked))
       = Some (PaperTrader.cash ticked + PaperTrader.spec_position_value ticked)
       ∧ ExposureManager.account_value (PaperTrader.exposure_manager ticked)
         = PaperTrader.cash ticked + PaperTrader.spec_position_value ticked
       ∧ (∀ pos, PaperTrader.positions ticked !! symbol = Some pos →
            PaperTrader.mark_price pos = default 0 (PaperTrader.q_price data)))
  ∧ (∀ summary,
       PaperTrader.get_account_summary pt' = PaperTrader.Returned summary →
       PaperTrader.sm_equity summary
       = PaperTrader.cash pt' + PaperTrader.spec_position_value pt')
  ∧ (∀ order at_time,
       PaperTrader.drawdown_controller
         (PaperTrader.execute_order fetch pt' order at_time).1
       = PaperTrader.drawdown_controller pt'
       ∧ PaperTrader.exposure_manager
           (PaperTrader.execute_order fetch pt' order at_time).1
         = PaperTrader.exposure_manager pt')
  ∧ Backtester._calculate_equity bt' current_price
    = Backtester.cash bt' + Backtester.spec_position_value bt' current_price
  ∧ list.last (Backtester.equity_curve marked)
    = Some (Backtester.cash marked + Backtester.spec_position_value marked current_price)
  ∧ list.last (DrawdownController.equity_curve (Backtester.drawdown_controller marked))
    = Some (Backtester.cash marked + Backtester.spec_position_value marked current_price)
  ∧ ExposureManager.account_value (Backtester.exposure_manager marked)
    = Backtester.cash marked + Backtester.spec_position_value marked current_price
  ∧ (∀ symbol price position_size,
       let entered := Backtester._execute_entry bt' symbol price position_size now in
       Backtester.equity_curve entered = Backtester.equity_curve bt'
       ∧ Backtester.drawdown_controller entered = Backtester.drawdown_controller bt'
       ∧ Backtester.exposure_manager entered = Backtester.exposure_manager bt')
  ∧ (∀ symbol price reason,
       let exited := Backtester._execute_exit bt' symbol price reason now in
       Backtester.equity_curve exited = Backtester.equity_curve bt'
       ∧ Backtester.drawdown_controller exited = Backtester.drawdown_controller bt'
       ∧ Backtester.exposure_manager exited = Backtester.exposure_manager bt').
Proof.
  intros pt' bt' marked.
  split; [apply paper_equity|].
  split.
  { intros symbol data ticked Htick.
    unfold PaperTrader.process_market_data in Htick.
    destruct (bool_decide (is_Some (PaperTrader.positions pt' !! symbol))) eqn:Hheld.
    - apply bool_decide_eq_true_1 in Hheld as [held Hheld].
      unfold PaperTrader._update_position_pnl in Htick. rewrite Hheld in Htick.
      destruct (Num.eqb (PaperTrader.entry_price held) 0); [done|].
      injection Htick as <-. simpl.
      rewrite last_snoc, paper_equity.
      split; [done|]. split; [done|].
      intros pos Hpos. rewrite lookup_insert_eq in Hpos. by injection Hpos as <-.
    - apply bool_decide_eq_false_1 in Hheld.
      injection Htick as <-. simpl.
      rewrite last_snoc, paper_equity.
      split; [done|]. split; [done|].
      intros pos Hpos. destruct Hheld. by exists pos. }
  split.
  { intros summary Hs. unfold PaperTrader.get_account_summary in Hs.
    case_match; [done|]. injection Hs as <-. simpl. apply paper_equity. }
  split.
  { intros order at_time.
    unfold PaperTrader.execute_order, PaperTrader._execute_buy,
      PaperTrader._execute_sell.
    repeat case_match; simplify_eq; done. }
  split; [apply backtest_equity|].
  subst marked. unfold Backtester.mark_to_market. simpl.
  rewrite !last_snoc, backtest_equity.
  split; [done|]. split; [done|]. split; [done|]. split.
  - intros symbol price position_size. simpl.
    unfold Backtester._execute_entry. by destruct (Num.gtb _ _).
  - intros symbol price reason. simpl.
    unfold Backtester._execute_exit. by destruct (Backtester.positions bt' !! symbol).
Qed.

(** The holder of 10 shares bought at 50 with 99500 in cash: the equity
    is 100000 at the entry price and 100100 once a price of 60 was seen. *)
Example holder_equity :
  PaperTrader._calculate_equity holder = Num.of_Z 100000
  ∧ PaperTrader._calculate_equity
      (PaperTrader.process_market_data holder "AAPL"
         (PaperTrader.mkQuote (Some (Num.of_Z 60)))).1
    = Num.of_Z 100100.
Proof. split; by_evaluation. Qed.

End Equity.

(** ** Exit and entry on one bar *)

Section SameBar.
Import Backtester.

(** On the second bar the position opened on the first is exited and a
    new one is opened: the log has an EXIT and an ENTRY dated 2. *)
Lemma exit_and_entry_on_the_same_bar :
  trades (run_backtest churner "AAPL" two_bars 0%Z frictionless)
  = [ENTRY "AAPL" 10 (Num.of_Z 100) (Num.of_Z 1000) 1%Z;
     EXIT "AAPL" 10 (Num.of_Z 110) (Num.of_Z 1100) (Num.of_Z 100) (Num.of_Z 10)
       "Signal" 2%Z;
     ENTRY "AAPL" 9 (Num.of_Z 110) (Num.of_Z 990) 2%Z;
     EXIT "AAPL" 9 (Num.of_Z 110) (Num.of_Z 990) 0 0 "End of backtest" 2%Z].
Proof. by_evaluation. Qed.

Lemma mark_to_market_positions (bt : t) (date : Time) (p : Qc) :
  positions (mark_to_market bt date p) = positions bt.
Proof. reflexivity. Qed.

Lemma mark_to_market_dates (bt : t) (date : Time) (p : Qc) (now : Time) :
  current_date (mark_to_market bt date p) now = date.
Proof. unfold current_date. simpl. by rewrite last_snoc. Qed.

Lemma _execute_exit_closes (bt : t) (symbol : string) (p : Qc) (reason : string)
    (now : Time) :
  positions (_execute_exit bt symbol p reason now) !! symbol = None.
Proof.
  unfold _execute_exit.
  destruct (positions bt !! symbol) eqn:E; [|done].
  simpl. apply lookup_delete_eq.
Qed.

Lemma _execute_exit_date (bt : t) (symbol : string) (p : Qc) (reason : string)
    (now : Time) :
  current_date (_execute_exit bt symbol p reason now) now = current_date bt now.
Proof. unfold _execute_exit. by destruct (positions bt !! symbol). Qed.

(** C3 (amended).  On a bar where the open position is exited by the
    exit signal, the position is no longer held when the entry check of
    that same bar runs, so the entry decision of the strategy is taken
    on that bar too: the bar ends with [_execute_entry] applied to the
    state after the exit whenever the strategy says enter with a
    positive size, and then, if the cash covers the cost, with a new
    position and an ENTRY record dated with the bar of the exit. *)
Theorem exit_then_entry_on_one_bar (strategy : Strategy) (symbol : string)
    (now : Time) (bt : t) (seen : list Bar) (bar : Bar) (pos : Position) :
  positions bt !! symbol = Some pos →
  exit (should_exit strategy symbol seen pos) = true →
  let close := bar_close bar in
  let marked := mark_to_market bt (bar_date bar) close in
  let exited :=
    _execute_exit marked symbol close
      (exit_reason (should_exit strategy symbol seen pos)) now in
  let decision := should_enter strategy symbol seen "LONG" in
  let size := size_of (position_size decision) in
  let after := process_bar strategy symbol now bt seen bar in
  positions exited !! symbol = None
  ∧ after
    = (if enter decision && Num.gtb size 0
       then _execute_entry exited symbol close size now
       else exited)
  ∧ (enter decision = true → 0 < size →
     Backtester.entry_total_cost exited close size ≤ cash exited →
     ∃ opened,
       positions after !! symbol = Some opened
       ∧ entry_date opened = bar_date bar
       ∧ list.last (trades after)
         = Some (ENTRY symbol (shares opened) (entry_price opened)
                   (Backtester.entry_total_cost exited close size) (bar_date bar))).
Proof.
  intros Hpos Hexit close marked exited decision size after.
  assert (Hnone : positions exited !! symbol = None)
    by apply _execute_exit_closes.
  assert (Hafter : after = if enter decision && Num.gtb size 0
                           then _execute_entry exited symbol close size now
                           else exited).
  { subst after. unfold process_bar, exit_step.
    rewrite mark_to_market_positions, Hpos, Hexit.
    fold close marked exited. unfold entry_step. rewrite Hnone.
    fold decision size. destruct (enter decision); [|done].
    by destruct (Num.gtb size 0). }
  split; [exact Hnone|]. split; [exact Hafter|].
  intros Henter Hsize Hcost. rewrite Hafter, Henter.
  rewrite (proj2 (gtb_true _ _) Hsize). simpl.
  assert (Hdate : current_date exited now = bar_date bar).
  { subst exited. rewrite _execute_exit_date. apply mark_to_market_dates. }
  unfold Backtester.entry_total_cost in Hcost. unfold _execute_entry.
  rewrite (proj2 (gtb_false _ _) Hcost). simpl.
  eexists. split; [apply lookup_insert_eq|].
  rewrite last_snoc, Hdate. done.
Qed.

Lemma exit_then_entry_on_one_bar_witness :
  (positions after_first_bar !! "AAPL" = Some (mkPosition 10 (Num.of_Z 100) 1%Z)
   ∧ exit (should_exit churner "AAPL" two_bars (mkPosition 10 (Num.of_Z 100) 1%Z)) = true)
  ∧ positions
      (_execute_exit
         (mark_to_market after_first_bar 2%Z (Num.of_Z 110)) "AAPL" (Num.of_Z 110)
         "Signal" 0%Z) !! "AAPL" = None.
Proof.
  assert (H1 : positions after_first_bar !! "AAPL"
               = Some (mkPosition 10 (Num.of_Z 100) 1%Z)) by by_evaluation.
  assert (H2 : exit (should_exit churner "AAPL" two_bars
                       (mkPosition 10 (Num.of_Z 100) 1%Z)) = true) by reflexivity.
  split; [done|].
  exact (proj1 (exit_then_entry_on_one_bar churner "AAPL" 0%Z after_first_bar
                  two_bars (mkBar 2%Z (Num.of_Z 110))
                  (mkPosition 10 (Num.of_Z 100) 1%Z) H1 H2)).
Defined.

End SameBar.

(** * Further properties of the modelled code *)

(** ** The drawdown controller *)

Section DrawdownFacts.
Import DrawdownController.

Lemma last_expanding_max_from (xs : list Qc) (p : Qc) :
  list.last (p :: expanding_max_from p xs) = Some (foldl raise_peak p xs).
Proof.
  revert p. induction xs as [|x xs IH]; intros p; [done|].
  cbn [expanding_max_from foldl]. rewrite last_cons_cons. apply IH.
Qed.

Lemma last_expanding_max (x : Qc) (xs : list Qc) :
  list.last (expanding_max (x :: xs)) = Some (foldl raise_peak x xs).
Proof. apply last_expanding_max_from. Qed.

Lemma raise_peak_ge (p x : Qc) : p ≤ raise_peak p x ∧ x ≤ raise_peak p x.
Proof.
  unfold raise_peak. destruct (Num.gtb x p) eqn:E.
  - apply gtb_true in E. split; [by apply Qclt_le_weak|apply Qcle_refl].
  - apply gtb_false in E. split; [apply Qcle_refl|done].
Qed.

Lemma running_peak_bound (xs : list Qc) (p : Qc) :
  p ≤ foldl raise_peak p xs ∧ ∀ x, x ∈ xs → x ≤ foldl raise_peak p xs.
Proof.
  revert p. induction xs as [|y ys IH]; intros p.
  - split; [apply Qcle_refl|]. intros x Hx. by apply elem_of_nil in Hx.
  - simpl. destruct (IH (raise_peak p y)) as [H1 H2].
    destruct (raise_peak_ge p y) as [Hp Hy]. split.
    + by apply Qcle_trans with (raise_peak p y).
    + intros x Hx. apply elem_of_cons in Hx as [->|Hx]; [|by apply H2].
      by apply Qcle_trans with (raise_peak p y).
Qed.

Lemma running_peak_member (xs : list Qc) (p : Qc) :
  foldl raise_peak p xs = p ∨ foldl raise_peak p xs ∈ xs.
Proof.
  revert p. induction xs as [|y ys IH]; intros p; [by left|].
  simpl. destruct (IH (raise_peak p y)) as [E|E].
  - rewrite E. unfold raise_peak. destruct (Num.gtb y p); [right; by left|by left].
  - right. by right.
Qed.

Lemma update_all_curve (es : list Qc) (dc : t) :
  equity_curve (foldl update_equity dc es) = equity_curve dc ++ es.
Proof.
  revert dc. induction es as [|e es IH]; intros dc; simpl.
  - by rewrite app_nil_r.
  - rewrite IH. simpl. by rewrite <- app_assoc.
Qed.

Lemma update_all_peak (es : list Qc) (dc : t) (p : Qc) :
  peak_equity dc = Some p →
  peak_equity (foldl update_equity dc es) = Some (foldl raise_peak p es).
Proof.
  revert dc p. induction es as [|e es IH]; intros dc p Hp; [done|].
  simpl. apply IH. unfold update_equity. simpl. rewrite Hp.
  unfold raise_peak. by destruct (Num.gtb e p).
Qed.

(** X1.  A controller that starts empty and is fed a list of equities
    holds exactly that list as its curve, and its stored peak is the
    running maximum the drawdown report computes from the curve: it is a
    member of the curve and no equity of the curve is above it. *)
Theorem peak_is_running_maximum (cfg : Config) (es : list Qc) :
  let dc := foldl update_equity (init cfg) es in
  equity_curve dc = es
  ∧ peak_equity dc = list.last (expanding_max es)
  ∧ (∀ e, e ∈ es → ∃ p, peak_equity dc = Some p ∧ e ≤ p)
  ∧ (∀ p, peak_equity dc = Some p → p ∈ es).
Proof.
  intros dc.
  assert (Hcurve : equity_curve dc = es) by (subst dc; by rewrite update_all_curve).
  assert (Hpeak : peak_equity dc = list.last (expanding_max es)).
  { subst dc. destruct es as [|e es]; [done|].
    rewrite last_expanding_max. simpl. by apply update_all_peak. }
  split; [done|]. split; [done|]. rewrite Hpeak.
  destruct es as [|x xs].
  - split; [intros e He; by apply elem_of_nil in He|]. by intros p.
  - rewrite last_expanding_max.
    destruct (running_peak_bound xs x) as [Hx Hxs]. split.
    + intros e He. eexists. split; [done|].
      apply elem_of_cons in He as [->|He]; [done|by apply Hxs].
    + intros p [= <-]. destruct (running_peak_member xs x) as [->|E].
      * by left.
      * by right.
Qed.

Lemma zero_drawdown_is_safe (dc : t) :
  get_current_drawdown_pct (calculate_drawdown dc None) 0 = 0 →
  (0 ≤ max_drawdown_pct dc → check_max_drawdown dc = true)
  ∧ (0 ≤ reduce_risk_at_drawdown dc →
     should_reduce_risk dc = false ∧ get_risk_multiplier dc = 1)
  ∧ (0 ≤ kill_switch_drawdown dc → activate_kill_switch dc = (dc, false)).
Proof.
  intros Hz.
  unfold get_risk_multiplier, check_max_drawdown, should_reduce_risk, activate_kill_switch.
  rewrite Hz. split; [|split].
  - intros H. apply gtb_false in H. rewrite H. by destruct (equity_curve dc).
  - intros H. apply gtb_false in H. rewrite H. by destruct (equity_curve dc).
  - intros H. apply gtb_false in H. rewrite H. by destruct (equity_curve dc).
Qed.

Lemma running_peak_below (xs : list Qc) (p e : Qc) :
  p ≤ e → (∀ x, x ∈ xs → x ≤ e) → foldl raise_peak p xs ≤ e.
Proof.
  intros Hp Hxs. destruct (running_peak_member xs p) as [->|E]; [done|by apply Hxs].
Qed.

Lemma new_peak_is_running_peak (curve : list Qc) (e : Qc) :
  (∀ x, x ∈ curve → x ≤ e) →
  list.last (expanding_max (curve ++ [e])) = Some e.
Proof.
  intros Hle. destruct curve as [|x xs].
  - done.
  - change ((x :: xs) ++ [e]) with (x :: (xs ++ [e])).
    rewrite last_expanding_max, foldl_app. simpl. f_equal.
    assert (Hq : foldl raise_peak x xs ≤ e).
    { apply running_peak_below; [apply Hle; by left|].
      intros y Hy. apply Hle. by right. }
    unfold raise_peak. destruct (Num.gtb e _) eqn:E; [done|].
    apply gtb_false in E. by apply Qcle_antisym.
Qed.

Lemma new_peak_drawdown_zero (curve : list Qc) (e : Qc) :
  e ≠ 0 →
  (∀ x, x ∈ curve → x ≤ e) → spec_current_drawdown (curve ++ [e]) = 0.
Proof.
  intros Hne Hle. unfold spec_current_drawdown, iloc_last.
  rewrite last_snoc. simpl.
  rewrite (new_peak_is_running_peak _ _ Hle). simpl.
  assert (E0 : (e - e) / e = 0) by (unfold Qcdiv; ring).
  rewrite E0. apply Qcabs_pos, Qcle_refl.
Qed.

(** X2.  An update with a non-zero equity that is at least as large as
    every equity recorded before leaves no drawdown: the reported
    current drawdown is 0, and with non-negative thresholds the drawdown
    check passes, no risk reduction is asked for and the kill switch
    does not fire.  (The new value is the running peak the drawdown is
    divided by; a zero peak is outside this statement.) *)
Theorem new_peak_has_no_drawdown (dc : t) (e : Qc) :
  e ≠ 0 →
  (∀ x, x ∈ equity_curve dc → x ≤ e) →
  let dc' := update_equity dc e in
  iloc_last (expanding_max (equity_curve dc')) = e
  ∧ get_current_drawdown_pct (calculate_drawdown dc' None) 0 = 0
  ∧ (0 ≤ max_drawdown_pct dc → check_max_drawdown dc' = true)
  ∧ (0 ≤ reduce_risk_at_drawdown dc →
     should_reduce_risk dc' = false ∧ get_risk_multiplier dc' = 1)
  ∧ (0 ≤ kill_switch_drawdown dc → activate_kill_switch dc' = (dc', false)).
Proof.
  intros Hne Hle dc'.
  assert (Hpeak : iloc_last (expanding_max (equity_curve dc')) = e).
  { subst dc'. simpl. unfold iloc_last.
    by rewrite (new_peak_is_running_peak _ _ Hle). }
  assert (Hz : get_current_drawdown_pct (calculate_drawdown dc' None) 0 = 0).
  { destruct (equity_curve dc) as [|x xs] eqn:Hc.
    - unfold calculate_drawdown. subst dc'. simpl. by rewrite Hc.
    - rewrite current_drawdown_pct_is_percent.
      + subst dc'. simpl.
        rewrite new_peak_drawdown_zero; [ring|done|by rewrite Hc].
      + subst dc'. simpl. rewrite Hc. rewrite length_app. simpl. lia. }
  split; [exact Hpeak|]. split; [exact Hz|]. exact (zero_drawdown_is_safe dc' Hz).
Qed.

Lemma new_peak_has_no_drawdown_witness :
  Num.of_Z 120 ≠ 0
  ∧ (∀ x, x ∈ equity_curve one_percent_down → x ≤ Num.of_Z 120)
  ∧ check_max_drawdown (update_equity one_percent_down (Num.of_Z 120)) = true.
Proof.
  assert (Hne : Num.of_Z 120 ≠ 0) by refute_by_evaluation.
  assert (H : ∀ x, x ∈ equity_curve one_percent_down → x ≤ Num.of_Z 120).
  { intros x Hx. change (equity_curve one_percent_down)
      with [Num.of_Z 100; Num.of_Z 99] in Hx.
    apply elem_of_cons in Hx as [->|Hx]; [by_evaluation|].
    apply elem_of_cons in Hx as [->|Hx]; [by_evaluation|].
    by apply elem_of_nil in Hx. }
  split; [exact Hne|]. split; [exact H|].
  apply (proj1 (proj2 (proj2
    (new_peak_has_no_drawdown one_percent_down (Num.of_Z 120) Hne H)))).
  by_evaluation.
Defined.

(** X3.  On a curve of fewer than two points there is no drawdown to
    act on: with non-negative thresholds the check passes, the risk
    multiplier is 1 and [activate_kill_switch] returns [False] and
    leaves the controller as it is. *)
Theorem short_curve_is_safe (dc : t) :
  (length (equity_curve dc) < 2)%nat →
  0 ≤ max_drawdown_pct dc →
  0 ≤ reduce_risk_at_drawdown dc →
  0 ≤ kill_switch_drawdown dc →
  calculate_drawdown dc None = Short 0 0 0
  ∧ check_max_drawdown dc = true
  ∧ should_reduce_risk dc = false
  ∧ get_risk_multiplier dc = 1
  ∧ activate_kill_switch dc = (dc, false).
Proof.
  intros Hlen Hm Hr Hk.
  assert (Hs : calculate_drawdown dc None = Short 0 0 0).
  { unfold calculate_drawdown. simpl. by rewrite bool_decide_eq_true_2. }
  assert (Hz : get_current_drawdown_pct (calculate_drawdown dc None) 0 = 0)
    by (by rewrite Hs).
  destruct (zero_drawdown_is_safe dc Hz) as (H1 & H2 & H3).
  destruct (H2 Hr) as [H2a H2b].
  split; [exact Hs|]. split; [exact (H1 Hm)|]. split; [exact H2a|].
  split; [exact H2b|exact (H3 Hk)].
Qed.

Lemma short_curve_is_safe_witness :
  ((length (equity_curve (update_equity (init no_drawdown_config) (Num.of_Z 100))) < 2)%nat
   ∧ 0 ≤ max_drawdown_pct (update_equity (init no_drawdown_config) (Num.of_Z 100))
   ∧ 0 ≤ reduce_risk_at_drawdown (update_equity (init no_drawdown_config) (Num.of_Z 100))
   ∧ 0 ≤ kill_switch_drawdown (update_equity (init no_drawdown_config) (Num.of_Z 100)))
  ∧ check_max_drawdown (update_equity (init no_drawdown_config) (Num.of_Z 100)) = true.
Proof.
  assert (H1 : (length (equity_curve (update_equity (init no_drawdown_config)
                                        (Num.of_Z 100))) < 2)%nat) by (simpl; lia).
  assert (H2 : 0 ≤ max_drawdown_pct (update_equity (init no_drawdown_config) (Num.of_Z 100)))
    by by_evaluation.
  assert (H3 : 0 ≤ reduce_risk_at_drawdown (update_equity (init no_drawdown_config) (Num.of_Z 100)))
    by by_evaluation.
  assert (H4 : 0 ≤ kill_switch_drawdown (update_equity (init no_drawdown_config) (Num.of_Z 100)))
    by by_evaluation.
  split; [done|].
  exact (proj1 (proj2 (short_curve_is_safe _ H1 H2 H3 H4))).
Defined.

(** X4.  The three thresholds act on the same number, so they nest: when
    the kill switch fires, every threshold that is not above the
    kill-switch threshold is exceeded too, that is, the drawdown check
    fails and the reduced risk multiplier applies. *)
Theorem kill_switch_implies_other_limits (dc : t) :
  (activate_kill_switch dc).2 = true →
  kill_switch_active (activate_kill_switch dc).1 = true
  ∧ (max_drawdown_pct dc ≤ kill_switch_drawdown dc → check_max_drawdown dc = false)
  ∧ (reduce_risk_at_drawdown dc ≤ kill_switch_drawdown dc →
     should_reduce_risk dc = true
     ∧ get_risk_multiplier dc = reduce_risk_multiplier dc).
Proof.
  unfold get_risk_multiplier, activate_kill_switch, check_max_drawdown, should_reduce_risk.
  destruct (equity_curve dc) as [|x xs]; [done|].
  destruct (Num.gtb _ (kill_switch_drawdown dc)) eqn:Hk; [|done].
  intros _. apply gtb_true in Hk. split; [done|]. split.
  - intros Hle. rewrite (proj2 (gtb_true _ _)); [done|].
    by apply Qcle_lt_trans with (kill_switch_drawdown dc).
  - intros Hle. rewrite (proj2 (gtb_true _ _)); [done|].
    by apply Qcle_lt_trans with (kill_switch_drawdown dc).
Qed.

Lemma kill_switch_implies_other_limits_witness :
  (activate_kill_switch
     (foldl update_equity (init no_drawdown_config) [Num.of_Z 100; Num.of_Z 50])).2 = true
  ∧ kill_switch_active tripped = true.
Proof.
  assert (H : (activate_kill_switch
                 (foldl update_equity (init no_drawdown_config)
                    [Num.of_Z 100; Num.of_Z 50])).2 = true) by (vm_compute; reflexivity).
  split; [exact H|].
  exact (proj1 (kill_switch_implies_other_limits _ H)).
Defined.

Lemma exec_curve (dc : t) (c : call) :
  equity_curve (exec dc c) = equity_curve dc ++ updates_of [c]
  ∧ max_drawdown_pct (exec dc c) = max_drawdown_pct dc
  ∧ reduce_risk_at_drawdown (exec dc c) = reduce_risk_at_drawdown dc
  ∧ kill_switch_drawdown (exec dc c) = kill_switch_drawdown dc
  ∧ reduce_risk_multiplier (exec dc c) = reduce_risk_multiplier dc.
Proof.
  destruct c; simpl; rewrite ?app_nil_r; try done.
  unfold activate_kill_switch. destruct (equity_curve dc) as [|x xs] eqn:E.
  - simpl. by rewrite E.
  - destruct (Num.gtb _ _); simpl; by rewrite E.
Qed.

(** X5.  No call of the class removes or rewrites history or touches a
    threshold: after any call sequence the curve is the old curve
    followed by the equities of the [update_equity] calls, in order, and
    the four configured numbers are what they were. *)
Theorem curve_is_append_only (dc : t) (cs : list call) :
  equity_curve (exec_all dc cs) = equity_curve dc ++ updates_of cs
  ∧ max_drawdown_pct (exec_all dc cs) = max_drawdown_pct dc
  ∧ reduce_risk_at_drawdown (exec_all dc cs) = reduce_risk_at_drawdown dc
  ∧ kill_switch_drawdown (exec_all dc cs) = kill_switch_drawdown dc
  ∧ reduce_risk_multiplier (exec_all dc cs) = reduce_risk_multiplier dc.
Proof.
  revert dc. induction cs as [|c cs IH]; intros dc.
  - simpl. by rewrite app_nil_r.
  - change (exec_all dc (c :: cs)) with (exec_all (exec dc c) cs).
    destruct (IH (exec dc c)) as (H1 & H2 & H3 & H4 & H5).
    destruct (exec_curve dc c) as (E1 & E2 & E3 & E4 & E5).
    rewrite H1, H2, H3, H4, H5, E1, E2, E3, E4, E5.
    split; [|done]. rewrite <- app_assoc. f_equal.
    unfold updates_of. simpl. by destruct c.
Qed.

End DrawdownFacts.

(** ** The exposure ledger *)

Section ExposureFacts.
Import ExposureManager.


Lemma can_add_position_true (em : t) (symbol : string) (sz : Qc) :
  can_add_position em symbol sz = true
  ↔ positions em !! symbol = None
    ∧ sz ≤ account_value em * max_single_position_pct em
    ∧ total_exposure (calculate_total_exposure em) + sz
      ≤ account_value em * max_total_exposure_pct em.
Proof.
  unfold can_add_position, check_max_position_size.
  case_bool_decide as Hheld.
  { split; [done|]. intros [Hnone _]. rewrite Hnone in Hheld. by destruct Hheld. }
  assert (Hnone : positions em !! symbol = None).
  { destruct (positions em !! symbol) eqn:E; [|done]. destruct Hheld. eauto. }
  destruct (Num.leb sz _) eqn:Hs; simpl.
  - apply leb_true in Hs.
    destruct (Num.gtb _ _) eqn:Ht; simpl in *.
    + apply gtb_true in Ht. split; [done|]. intros (_ & _ & Hle).
      by apply Qcle_not_lt in Hle.
    + apply gtb_false in Ht. done.
  - apply leb_false in Hs. split; [done|]. intros (_ & Hle & _).
    by apply Qcle_not_lt in Hle.
Qed.

(** X6.  The ledger admits no second position in a symbol, whatever the
    size, and adding a position for a symbol that was free and removing
    it again gives back the manager as it was; removing a symbol that is
    not in the ledger changes nothing. *)
Theorem ledger_add_remove (em : t) (symbol : string) (sz pr : Qc) :
  (∀ sz', can_add_position (add_position em symbol sz pr) symbol sz' = false)
  ∧ (positions em !! symbol = None →
     remove_position (add_position em symbol sz pr) symbol = em
     ∧ remove_position em symbol = em).
Proof.
  split.
  - intros sz'. unfold can_add_position, add_position. simpl.
    rewrite lookup_insert_eq. by rewrite bool_decide_eq_true_2.
  - intros Hnone. destruct em as [a b c d av ps]. simpl in *.
    unfold remove_position, add_position, set_positions. simpl.
    split; f_equal.
    + rewrite delete_insert_eq. by apply delete_id.
    + by apply delete_id.
Qed.



(** X8.  Admission is monotone in the account value: with non-negative
    limits, a position that can be added stays admissible when the
    account value is updated to a larger one. *)
Theorem admission_is_monotone (em : t) (symbol : string) (sz v : Qc) :
  0 ≤ max_single_position_pct em →
  0 ≤ max_total_exposure_pct em →
  account_value em ≤ v →
  can_add_position em symbol sz = true →
  can_add_position (update_account_value em v) symbol sz = true.
Proof.
  intros Hs Ht Hv Hok. apply can_add_position_true in Hok as (Hn & H1 & H2).
  apply can_add_position_true. simpl. split; [done|]. split.
  - apply Qcle_trans with (account_value em * max_single_position_pct em); [done|].
    by apply Qcmult_le_compat_r.
  - apply Qcle_trans with (account_value em * max_total_exposure_pct em); [done|].
    by apply Qcmult_le_compat_r.
Qed.

Lemma admission_is_monotone_witness :
  (0 ≤ max_single_position_pct (init no_exposure_config (Num.of_Z 100000))
   ∧ 0 ≤ max_total_exposure_pct (init no_exposure_config (Num.of_Z 100000))
   ∧ account_value (init no_exposure_config (Num.of_Z 100000)) ≤ Num.of_Z 120000
   ∧ can_add_position (init no_exposure_config (Num.of_Z 100000)) "AAPL"
       (Num.of_Z 10000) = true)
  ∧ can_add_position
      (update_account_value (init no_exposure_config (Num.of_Z 100000)) (Num.of_Z 120000))
      "AAPL" (Num.of_Z 10000) = true.
Proof.
  assert (H1 : 0 ≤ max_single_position_pct (init no_exposure_config (Num.of_Z 100000)))
    by by_evaluation.
  assert (H2 : 0 ≤ max_total_exposure_pct (init no_exposure_config (Num.of_Z 100000)))
    by by_evaluation.
  assert (H3 : account_value (init no_exposure_config (Num.of_Z 100000)) ≤ Num.of_Z 120000)
    by by_evaluation.
  assert (H4 : can_add_position (init no_exposure_config (Num.of_Z 100000)) "AAPL"
                 (Num.of_Z 10000) = true) by (vm_compute; reflexivity).
  split; [done|].
  exact (admission_is_monotone _ "AAPL" (Num.of_Z 10000) (Num.of_Z 120000) H1 H2 H3 H4).
Defined.

(** X9.  The sector and the correlation check are placeholders: they
    always measure an exposure of 0, for every sector and every ledger,
    so they answer "within limit" exactly when the configured limit is
    not negative. *)
Theorem placeholder_checks_measure_nothing (em : t) (sector : string) :
  lc_exposure (check_sector_exposure em sector) = 0
  ∧ lc_exposure_pct (check_sector_exposure em sector) = 0
  ∧ (within_limit (check_sector_exposure em sector) = true
     ↔ 0 ≤ max_sector_exposure_pct em)
  ∧ lc_exposure (check_correlation_exposure em) = 0
  ∧ lc_exposure_pct (check_correlation_exposure em) = 0
  ∧ (within_limit (check_correlation_exposure em) = true
     ↔ 0 ≤ max_correlation_exposure_pct em).
Proof.
  assert (Hpct : (if Num.gtb (account_value em) 0 then 0 / account_value em else 0) = 0).
  { destruct (Num.gtb _ _); [|done]. unfold Qcdiv. ring. }
  unfold check_sector_exposure, check_correlation_exposure. simpl.
  rewrite !Hpct. repeat split; try apply leb_true; done.
Qed.

End ExposureFacts.

(** ** Position sizing *)

Section SizingFacts.
Import PositionSizer.

Lemma min_le (a b : Qc) : Num.min a b ≤ a ∧ Num.min a b ≤ b.
Proof.
  unfold Num.min. destruct (Num.gtb a b) eqn:E.
  - apply gtb_true in E. split; [by apply Qclt_le_weak|apply Qcle_refl].
  - apply gtb_false in E. split; [apply Qcle_refl|done].
Qed.

(** [int(x)] of a number below 1 is below 1. *)
Lemma trunc_below_one (x : Qc) : x < Num.of_Z 1 → (Num.trunc x < 1)%Z.
Proof.
  intros Hx. unfold Num.trunc.
  assert (Hn : (Qnum x < Z.pos (Qden x))%Z).
  { unfold Qclt, Qlt in Hx. simpl in Hx. lia. }
  destruct (Z.le_gt_cases 0 (Qnum x)) as [H0|H0].
  - rewrite Z.quot_small; lia.
  - pose proof (Z.quot_opp_l (- Qnum x) (Z.pos (Qden x))) as Ho.
    rewrite Z.opp_involutive in Ho.
    pose proof (Z.quot_pos (- Qnum x) (Z.pos (Qden x))) as Hp. lia.
Qed.

(** X11.  The share count of a position is 0 on a non-positive price;
    on a positive price a non-negative size below the price of one
    share, which buys no full share, still gives exactly 1 share, a
    position that costs more than the size asked for. *)
Theorem calculate_shares_buys_one_share (ps : t) (price position_size : Qc) :
  (price ≤ 0 → calculate_shares ps price position_size = 0%Z)
  ∧ (0 < price → 0 ≤ position_size → position_size < price →
     calculate_shares ps price position_size = 1%Z
     ∧ position_size
       < Num.of_Z (calculate_shares ps price position_size) * price).
Proof.
  unfold calculate_shares. split.
  - intros Hp. by rewrite (proj2 (leb_true _ _) Hp).
  - intros Hp _ Hlt. rewrite (proj2 (leb_false _ _) Hp).
    assert (Hne : price ≠ 0).
    { intros E. rewrite E in Hp. by apply Qclt_not_eq in Hp. }
    assert (Hmul : position_size / price * price = position_size).
    { rewrite Qcmult_comm. by apply Qcmult_div_r. }
    assert (Hq1 : position_size / price < Num.of_Z 1).
    { destruct (Qclt_le_dec (position_size / price) (Num.of_Z 1)) as [H|H]; [done|].
      exfalso. apply (Qcmult_le_compat_r _ _ price) in H; [|by apply Qclt_le_weak].
      rewrite Hmul, of_Z_one, Qcmult_1_l in H. by apply Qcle_not_lt in H. }
    assert (Ht : (Num.trunc (position_size / price) < 1)%Z)
      by (by apply trunc_below_one).
    rewrite Z.max_l by lia. split; [done|]. by rewrite of_Z_one, Qcmult_1_l.
Qed.

(** X10.  A call of [calculate_position_size] with a zero stop raises
    [ZeroDivisionError]; any other call returns a size that is one of
    its two candidates, the risk amount divided by the stop or the cap
    of [max_position_size_pct] of the account, and exceeds neither. *)
Theorem position_size_is_capped (ps : t) (account_value : Qc) (risk : option Qc)
    (stop : Qc) :
  (stop = 0 →
   calculate_position_size_call ps account_value risk stop = inl ZeroDivisionError)
  ∧ (stop ≠ 0 →
     ∃ r, calculate_position_size_call ps account_value risk stop = inr r
       ∧ risk_amount r = account_value * default (risk_per_trade ps) risk
       ∧ max_position_size r = account_value * max_position_size_pct ps
       ∧ (position_size r = risk_amount r / stop
          ∨ position_size r = max_position_size r)
       ∧ position_size r ≤ risk_amount r / stop
       ∧ position_size r ≤ max_position_size r).
Proof.
  unfold calculate_position_size_call, Num.eqb. split.
  - intros ->. by rewrite bool_decide_eq_true_2.
  - intros Hs. rewrite bool_decide_eq_false_2 by done.
    eexists. split; [done|]. unfold calculate_position_size. simpl.
    destruct (min_le (account_value * default (risk_per_trade ps) risk / stop)
                (account_value * max_position_size_pct ps)) as [H1 H2].
    split; [done|]. split; [done|]. split; [|done].
    unfold Num.min. destruct (Num.gtb _ _); [by right|by left].
Qed.

Lemma clamp_unit (k : Qc) : 0 ≤ py_max 0 (Num.min 1 k) ∧ py_max 0 (Num.min 1 k) ≤ 1.
Proof.
  unfold py_max. destruct (Num.gtb (Num.min 1 k) 0) eqn:E.
  - apply gtb_true in E. split; [by apply Qclt_le_weak|]. apply min_le.
  - split; [apply Qcle_refl|by_evaluation].
Qed.

(** X12.  The Kelly helper: 0 when the average loss is 0; otherwise it
    divides by the win/loss ratio and so raises when the average win is
    0; in every other case it returns half of a fraction clamped to
    [0, 1], a value between 0 and 0.5, whatever the sign of the loss. *)
Theorem kelly_fraction_bounds (ps : t) (win_rate avg_win avg_loss : Qc) :
  (avg_loss = 0 → apply_kelly_criterion ps win_rate avg_win avg_loss = inr 0)
  ∧ (avg_loss ≠ 0 → avg_win = 0 →
     apply_kelly_criterion ps win_rate avg_win avg_loss = inl ZeroDivisionError)
  ∧ (avg_loss ≠ 0 → avg_win ≠ 0 →
     ∃ f, apply_kelly_criterion ps win_rate avg_win avg_loss = inr f)
  ∧ (∀ f, apply_kelly_criterion ps win_rate avg_win avg_loss = inr f →
     0 ≤ f ∧ f ≤ Num.dec 1 2)
  ∧ apply_kelly_criterion ps win_rate avg_win (- avg_loss)
    = apply_kelly_criterion ps win_rate avg_win avg_loss.
Proof.
  unfold apply_kelly_criterion, Num.eqb.
  split; [|split; [|split; [|split]]].
  - intros ->. by rewrite bool_decide_eq_true_2.
  - intros Hl ->. rewrite bool_decide_eq_false_2 by done.
    rewrite bool_decide_eq_true_2; [done|]. unfold Qcdiv. ring.
  - intros Hl Hw. rewrite bool_decide_eq_false_2 by done.
    rewrite bool_decide_eq_false_2; [by eexists|].
    unfold Qcdiv. intros E. apply Qcmult_integral in E as [E|E]; [done|].
    assert (Ha : Qcabs avg_loss ≠ 0) by (intros Ha; by apply Qcabs_null in Ha).
    apply Ha. rewrite <- (Qcmult_1_l (Qcabs avg_loss)).
    rewrite <- (Qcmult_inv_l _ Ha), E. ring.
  - intros f. case_bool_decide; [intros [= <-]; split; by_evaluation|].
    case_bool_decide; [done|]. intros [= <-].
    destruct (clamp_unit ((win_rate * (avg_win / Qcabs avg_loss) - (1 - win_rate))
                          / (avg_win / Qcabs avg_loss))) as [Hlo Hhi].
    assert (Hhalf : 0 ≤ Num.dec 5 10) by by_evaluation. split.
    + pose proof (Qcmult_le_compat_r _ _ _ Hlo Hhalf) as Hb.
      by rewrite Qcmult_0_l in Hb.
    + pose proof (Qcmult_le_compat_r _ _ _ Hhi Hhalf) as Hb.
      assert (E : 1 * Num.dec 5 10 = Num.dec 1 2) by by_evaluation.
      by rewrite E in Hb.
  - rewrite Qcabs_opp.
    assert (Hz : - avg_loss = 0 ↔ avg_loss = 0).
    { split; intros E; [|rewrite E; ring].
      rewrite <- (Qcopp_involutive avg_loss), E. ring. }
    destruct (decide (avg_loss = 0)) as [E|E].
    + rewrite !bool_decide_eq_true_2; [done|done|by apply Hz].
    + rewrite (bool_decide_eq_false_2 (- avg_loss = 0)); [|by rewrite Hz].
      by rewrite (bool_decide_eq_false_2 (avg_loss = 0)).
Qed.

End SizingFacts.

(** ** The entry decision *)

Section DecisionFacts.
Import BaseStrategy.

Lemma note_length (ok : bool) (msg : string) (rs : list string) :
  length (note ok msg rs) = (length rs + (if ok then 0 else 1))%nat.
Proof. destruct ok; simpl; [lia|]. rewrite length_app. simpl. lia. Qed.

(** X13.  No layer is skipped and every failing layer leaves exactly one
    reason: the number of reasons and the number of passing checks add
    up to six, in both decision modes. *)
Theorem reasons_are_complete (s : t) (symbol : string) (df : list Bar)
    (direction : string) (required_regime : option string) :
  let d := should_enter s symbol df direction required_regime in
  (length (reasons d) + passed_count (checks d) = 6)%nat
  ∧ (reasons d = [] ↔ passed_count (checks d) = 6%nat).
Proof.
  intros d.
  assert (H : (length (reasons d) + passed_count (checks d) = 6)%nat).
  { subst d. unfold should_enter. cbn [reasons checks].
    rewrite !note_length. unfold passed_count, values.
    cbn [regime fundamentals sentiment intermarket technical risk].
    destruct (if regime_required required_regime then _ else _),
      (check_fundamentals s symbol direction),
      (check_sentiment s symbol direction),
      (check_intermarket s symbol direction),
      (default false (signal (check_technical_entry (collaborators s) df))),
      (check_risk_rules _ _ _); reflexivity. }
  split; [exact H|]. clearbody d.
  destruct (reasons d) as [|r rs]; cbn [length] in H; split; intros E; try done; lia.
Qed.

Lemma should_enter_rule (s : t) (symbol : string) (df : list Bar)
    (direction : string) (required_regime : option string) :
  let d := should_enter s symbol df direction required_regime in
  enter d = (if require_all_layers s then all_values (checks d)
             else bool_decide (4 ≤ passed_count (checks d))%nat).
Proof. done. Qed.

(** The dollar size the risk layer is asked about. *)
Lemma should_enter_size (s : t) (symbol : string) (df : list Bar)
    (direction : string) (required_regime : option string) :
  let d := should_enter s symbol df direction required_regime in
  let asked :=
    PositionSizer.position_size
      (PositionSizer.calculate_position_size (position_sizer s)
         (ExposureManager.get_account_value (exposure_manager s))
         (Some (Num.dec 1 100)) (Num.dec 5 100)) in
  position_size d = (if enter d then asked else 0)
  ∧ risk (checks d) = check_risk_rules s symbol asked.
Proof. done. Qed.

(** X14.  A decision that does not enter carries the position size 0.
    Under the all-layers rule an entering decision has passed the risk
    layer: the drawdown check of the strategy's controller holds, its
    exposure manager admits the symbol, and the size handed back is
    within the single-position limit of the account value. *)
Theorem all_layers_entry_is_risk_checked (s : t) (symbol : string) (df : list Bar)
    (direction : string) (required_regime : option string) :
  let d := should_enter s symbol df direction required_regime in
  (enter d = false → position_size d = 0)
  ∧ (require_all_layers s = true → enter d = true →
     DrawdownController.check_max_drawdown (drawdown_controller s) = true
     ∧ ExposureManager.can_add_position (exposure_manager s) symbol (position_size d) = true
     ∧ position_size d
       ≤ ExposureManager.account_value (exposure_manager s)
         * ExposureManager.max_single_position_pct (exposure_manager s)).
Proof.
  intros d.
  destruct (should_enter_size s symbol df direction required_regime) as [Hsz Hrisk].
  fold d in Hsz, Hrisk. split.
  - intros E. by rewrite Hsz, E.
  - intros Hall Hent.
    pose proof (should_enter_rule s symbol df direction required_regime) as Hrule.
    fold d in Hrule. cbv zeta in Hrule. rewrite Hall, Hent in Hrule.
    assert (Hr : risk (checks d) = true).
    { by destruct (checks d) as [[] [] [] [] [] []]. }
    rewrite Hrisk in Hr. rewrite Hsz, Hent.
    unfold check_risk_rules in Hr.
    destruct (DrawdownController.check_max_drawdown _); [|done]. simpl in Hr.
    destruct (ExposureManager.can_add_position _ _ _) eqn:Hadd; [|done].
    split; [done|]. split; [done|].
    by apply can_add_position_true in Hadd as (_ & Hle & _).
Qed.

End DecisionFacts.

(** ** The paper trader *)

Section PaperFacts.
Import PaperTrader.

Lemma sum_snoc (xs : list Qc) (x : Qc) : Num.sum (xs ++ [x]) = Num.sum xs + x.
Proof.
  induction xs as [|y ys IH].
  - change (x + 0 = 0 + x). ring.
  - change (y + Num.sum (ys ++ [x]) = y + Num.sum ys + x). rewrite IH. ring.
Qed.

Lemma _execute_buy_keeps (pt : t) (symbol : string) (q : Z) (p : Qc) (now : Time) :
  positions_positive pt → (0 < q)%Z →
  ∃ res,
    (_execute_buy pt symbol q p now).2 = Returned res
    ∧ positions_positive (_execute_buy pt symbol q p now).1
    ∧ (ledger_balanced pt → ledger_balanced (_execute_buy pt symbol q p now).1).
Proof.
  intros Hpos Hq. unfold _execute_buy.
  destruct (Num.gtb _ _); [by eexists|]. cbn [positions set_cash].
  assert (Hins : ∀ newpos,
            (0 < shares newpos)%Z →
            positions_positive
              (append_order
                 (set_positions (set_cash pt (cash pt - Num.of_Z q * p))
                    (<[symbol:=newpos]> (positions pt)))
                 {| or_symbol := symbol; or_side := "BUY"; or_quantity := q;
                    or_price := p; or_cost := Some (Num.of_Z q * p);
                    or_proceeds := None; or_pnl := None; or_timestamp := now;
                    or_status := "FILLED" |})).
  { intros newpos Hn s' pos'. cbn [positions append_order set_positions].
    rewrite lookup_insert. case_decide; [by intros [= <-]|by apply Hpos]. }
  assert (Hbal : ∀ ps,
            ledger_balanced pt →
            ledger_balanced
              (append_order
                 (set_positions (set_cash pt (cash pt - Num.of_Z q * p)) ps)
                 {| or_symbol := symbol; or_side := "BUY"; or_quantity := q;
                    or_price := p; or_cost := Some (Num.of_Z q * p);
                    or_proceeds := None; or_pnl := None; or_timestamp := now;
                    or_status := "FILLED" |})).
  { intros ps Hled. unfold ledger_balanced in *.
    cbn [cash initial_capital orders append_order set_positions set_cash].
    rewrite fmap_app, (sum_snoc _ (0 - Num.of_Z q * p)), Hled. ring. }
  destruct (positions pt !! symbol) as [pos|] eqn:E.
  - pose proof (Hpos _ _ E) as Hsh.
    rewrite bool_decide_eq_false_2 by lia.
    eexists. split; [done|]. split; [apply Hins; simpl; lia|apply Hbal].
  - eexists. split; [done|]. split; [apply Hins; simpl; lia|apply Hbal].
Qed.

Lemma _execute_sell_keeps (pt : t) (symbol : string) (q : Z) (p : Qc) (now : Time) :
  positions_positive pt → (0 < q)%Z →
  ∃ res,
    (_execute_sell pt symbol q p now).2 = Returned res
    ∧ positions_positive (_execute_sell pt symbol q p now).1
    ∧ (ledger_balanced pt → ledger_balanced (_execute_sell pt symbol q p now).1).
Proof.
  intros Hpos Hq. unfold _execute_sell.
  destruct (positions pt !! symbol) as [pos|] eqn:E; [|by eexists].
  case_bool_decide as Hsh; [by eexists|].
  eexists. split; [done|]. split.
  - intros s' pos'. case_bool_decide as Hz;
      cbn [fst positions append_trade append_order set_positions set_cash].
    + rewrite lookup_delete. case_decide; [done|by apply Hpos].
    + rewrite lookup_insert. case_decide; [|by apply Hpos].
      intros [= <-]. simpl. lia.
  - intros Hled. unfold ledger_balanced in *.
    case_bool_decide;
      cbn [fst cash initial_capital orders append_trade append_order set_positions set_cash];
      rewrite fmap_app, (sum_snoc _ (Num.of_Z q * p - 0)), Hled; ring.
Qed.

Lemma execute_order_keeps (fetch : string → string → Quote) (pt : t)
    (order : Order) (now : Time) :
  positions_positive pt → (0 < order_quantity order)%Z →
  ∃ res,
    (execute_order fetch pt order now).2 = Returned res
    ∧ positions_positive (execute_order fetch pt order now).1
    ∧ (ledger_balanced pt → ledger_balanced (execute_order fetch pt order now).1).
Proof.
  intros Hpos Hq. unfold execute_order.
  repeat case_match;
    try (by apply _execute_buy_keeps);
    try (by apply _execute_sell_keeps);
    by eexists.
Qed.

Lemma process_market_data_keeps (pt : t) (symbol : string) (data : Quote) :
  positions_positive pt →
  positions_positive (process_market_data pt symbol data).1
  ∧ (ledger_balanced pt → ledger_balanced (process_market_data pt symbol data).1).
Proof.
  intros Hpos. unfold process_market_data, _update_position_pnl.
  case_bool_decide as Hheld; [|done].
  destruct (positions pt !! symbol) as [pos|] eqn:E; [|done].
  assert (Hins : ∀ c u pct,
    positions_positive
      (set_positions pt
         (<[symbol := {| shares := shares pos; entry_price := entry_price pos;
                         entry_date := entry_date pos; current_price := c;
                         unrealized_pnl := u; unrealized_pnl_pct := pct |}]>
            (positions pt)))).
  { intros c u pct s' pos'. cbn [positions set_positions].
    rewrite lookup_insert. case_decide; [|by apply Hpos].
    intros [= <-]. simpl. by apply (Hpos symbol). }
  destruct (Num.eqb _ _); cbn [fst]; (split; [apply Hins|done]).
Qed.

Lemma step_keeps (fetch : string → string → Quote) (pt : t) (ev : event) :
  positions_positive pt → positive_quantity ev →
  positions_positive (step fetch pt ev)
  ∧ (ledger_balanced pt → ledger_balanced (step fetch pt ev)).
Proof.
  intros Hpos Hev. destruct ev as [order now|symbol data|capital]; simpl.
  - destruct (execute_order_keeps fetch pt order now Hpos Hev) as (? & _ & ? & ?).
    done.
  - by apply process_market_data_keeps.
  - split.
    + intros s' pos'. unfold initialize_account. cbn [positions].
      by rewrite lookup_empty.
    + intros _. unfold ledger_balanced, initialize_account.
      cbn [cash initial_capital orders].
      change (Num.sum (order_cash_flow <$> [])) with 0. ring.
Qed.

Lemma run_keeps (fetch : string → string → Quote) (evs : list event) (pt : t) :
  positions_positive pt → Forall positive_quantity evs →
  positions_positive (run fetch pt evs)
  ∧ (ledger_balanced pt → ledger_balanced (run fetch pt evs)).
Proof.
  revert pt. induction evs as [|ev evs IH]; intros pt Hpos Hevs; [done|].
  inversion Hevs as [|? ? Hev Hrest]; subst.
  destruct (step_keeps fetch pt ev Hpos Hev) as [H1 H2].
  destruct (IH (step fetch pt ev) H1 Hrest) as [H3 H4].
  split; [exact H3|]. intros Hled. apply H4, H2, Hled.
Qed.

Lemma fresh_trader_invariants (capital : Qc) :
  positions_positive (fresh_trader capital) ∧ ledger_balanced (fresh_trader capital).
Proof.
  split.
  - intros s' pos'. unfold fresh_trader, init. cbn [positions]. by rewrite lookup_empty.
  - unfold ledger_balanced, fresh_trader, init. cbn [cash initial_capital orders].
    change (Num.sum (order_cash_flow <$> [])) with 0. ring.
Qed.

Lemma sample_session_positive : Forall positive_quantity sample_session.
Proof. repeat constructor; simpl; unfold order_quantity; simpl; lia. Qed.

(** X16.  As long as every submitted order asks for a positive quantity,
    every recorded position holds a positive number of shares (a
    position sold out is deleted, never kept at 0), and no order can
    raise: the division by the new share total in the averaging buy is
    never a division by zero. *)
Theorem positions_stay_positive (fetch : string → string → Quote) (pt : t)
    (evs : list event) (order : Order) (now : Time) :
  positions_positive pt → Forall positive_quantity evs →
  (0 < order_quantity order)%Z →
  positions_positive (run fetch pt evs)
  ∧ ∃ res, (execute_order fetch (run fetch pt evs) order now).2 = Returned res.
Proof.
  intros Hpos Hevs Hq.
  destruct (run_keeps fetch evs pt Hpos Hevs) as [H1 _].
  split; [done|].
  destruct (execute_order_keeps fetch (run fetch pt evs) order now H1 Hq)
    as (res & Hres & _). by exists res.
Qed.

Lemma positions_stay_positive_witness :
  (positions_positive (fresh_trader (Num.of_Z 100000))
   ∧ Forall positive_quantity sample_session
   ∧ (0 < order_quantity (market_order "BUY" 10))%Z)
  ∧ positions_positive
      (run (quote_at (Num.of_Z 50)) (fresh_trader (Num.of_Z 100000)) sample_session).
Proof.
  destruct (fresh_trader_invariants (Num.of_Z 100000)) as [H1 _].
  assert (H4 : (0 < order_quantity (market_order "BUY" 10))%Z) by (vm_compute; reflexivity).
  split; [by auto using sample_session_positive|].
  exact (proj1 (positions_stay_positive (quote_at (Num.of_Z 50))
                  (fresh_trader (Num.of_Z 100000)) sample_session
                  (market_order "BUY" 10) 0%Z H1 sample_session_positive H4)).
Defined.

(** X17.  The books balance: for a trader whose cash equals its initial
    capital plus the cash moved by its logged orders (as right after
    construction), the same holds after any sequence of positive-quantity
    orders, price updates and account resets: the cash is the initial
    capital, minus the cost of every logged buy, plus the proceeds of
    every logged sell. *)
Theorem cash_matches_order_log (fetch : string → string → Quote) (pt : t)
    (evs : list event) :
  positions_positive pt → ledger_balanced pt → Forall positive_quantity evs →
  cash (run fetch pt evs)
  = initial_capital (run fetch pt evs)
    + Num.sum (order_cash_flow <$> orders (run fetch pt evs)).
Proof.
  intros Hpos Hled Hevs.
  destruct (run_keeps fetch evs pt Hpos Hevs) as [_ H]. exact (H Hled).
Qed.

Lemma cash_matches_order_log_witness :
  (positions_positive (fresh_trader (Num.of_Z 100000))
   ∧ ledger_balanced (fresh_trader (Num.of_Z 100000))
   ∧ Forall positive_quantity sample_session)
  ∧ ledger_balanced
      (run (quote_at (Num.of_Z 50)) (fresh_trader (Num.of_Z 100000)) sample_session).
Proof.
  destruct (fresh_trader_invariants (Num.of_Z 100000)) as [H1 H2].
  split; [by auto using sample_session_positive|].
  exact (cash_matches_order_log (quote_at (Num.of_Z 50))
           (fresh_trader (Num.of_Z 100000)) sample_session
           H1 H2 sample_session_positive).
Defined.




Lemma execute_order_risk_frame (fetch : string → string → Quote) (pt : t)
    (order : Order) (now : Time) (dc : DrawdownController.t) (em : ExposureManager.t) :
  execute_order fetch (set_risk pt dc em) order now
  = (set_risk (execute_order fetch pt order now).1 dc em,
     (execute_order fetch pt order now).2).
Proof.
  unfold execute_order, _execute_buy, _execute_sell.
  cbn [cash positions set_risk set_cash].
  repeat case_match; simplify_eq; reflexivity.
Qed.

(** X21.  The paper trader never gates an order by its risk state:
    executing an order with any other drawdown controller and exposure
    manager in place (a fired kill switch, a full exposure ledger) gives
    the same result and the same cash, positions, orders and trades, and
    leaves the two risk objects as they were. *)
Theorem orders_ignore_risk_state (fetch : string → string → Quote) (pt : t)
    (order : Order) (now : Time) (dc : DrawdownController.t) (em : ExposureManager.t) :
  let plain := execute_order fetch pt order now in
  let other := execute_order fetch (set_risk pt dc em) order now in
  other.2 = plain.2
  ∧ cash other.1 = cash plain.1
  ∧ positions other.1 = positions plain.1
  ∧ orders other.1 = orders plain.1
  ∧ trades other.1 = trades plain.1
  ∧ drawdown_controller other.1 = dc
  ∧ exposure_manager other.1 = em
  ∧ drawdown_controller plain.1 = drawdown_controller pt
  ∧ exposure_manager plain.1 = exposure_manager pt.
Proof.
  intros plain other. subst other. rewrite execute_order_risk_frame. fold plain.
  cbn [fst snd]. repeat split; try done.
  - subst plain. unfold execute_order, _execute_buy, _execute_sell.
    repeat case_match; reflexivity.
  - subst plain. unfold execute_order, _execute_buy, _execute_sell.
    repeat case_match; reflexivity.
Qed.

Lemma execute_order_keeps_risk (fetch : string → string → Quote) (pt : t)
    (order : Order) (now : Time) :
  drawdown_controller (execute_order fetch pt order now).1 = drawdown_controller pt.
Proof.
  unfold execute_order, _execute_buy, _execute_sell.
  repeat case_match; reflexivity.
Qed.

Lemma process_market_data_kill_switch (pt : t) (symbol : string) (data : Quote) :
  DrawdownController.kill_switch_active
    (drawdown_controller (process_market_data pt symbol data).1)
  = DrawdownController.kill_switch_active (drawdown_controller pt).
Proof.
  unfold process_market_data, _update_position_pnl.
  repeat case_match; simplify_eq; reflexivity.
Qed.

Lemma paper_run_kill_switch (fetch : string → string → Quote) (evs : list event) (pt : t) :
  DrawdownController.kill_switch_active (drawdown_controller (run fetch pt evs))
  = DrawdownController.kill_switch_active (drawdown_controller pt).
Proof.
  revert pt. induction evs as [|ev evs IH]; intros pt; [done|].
  change (run fetch pt (ev :: evs)) with (run fetch (step fetch pt ev) evs).
  rewrite IH. destruct ev as [order now|symbol data|capital]; simpl.
  - by rewrite execute_order_keeps_risk.
  - apply process_market_data_kill_switch.
  - done.
Qed.

(** X22.  A price update raises exactly when the symbol is held at an
    entry price of 0 (the percentage return divides by it); in that case
    no equity point is recorded.  Otherwise it returns, appends exactly
    one point, the equity after the update, to the drawdown curve, and
    changes neither the cash nor the logs nor any share count. *)
Theorem price_update_outcomes (pt : t) (symbol : string) (data : Quote) :
  let after := (process_market_data pt symbol data).1 in
  let result := (process_market_data pt symbol data).2 in
  (result = Raised ZeroDivisionError
   ↔ ∃ pos, positions pt !! symbol = Some pos ∧ entry_price pos = 0)
  ∧ (result = Raised ZeroDivisionError →
     DrawdownController.equity_curve (drawdown_controller after)
     = DrawdownController.equity_curve (drawdown_controller pt))
  ∧ (result = Returned () →
     DrawdownController.equity_curve (drawdown_controller after)
     = DrawdownController.equity_curve (drawdown_controller pt) ++ [_calculate_equity after])
  ∧ cash after = cash pt
  ∧ orders after = orders pt
  ∧ trades after = trades pt
  ∧ (∀ s, shares <$> positions after !! s = shares <$> positions pt !! s).
Proof.
  intros after result. subst after result.
  unfold process_market_data, _update_position_pnl.
  case_bool_decide as Hheld.
  - destruct (positions pt !! symbol) as [pos|] eqn:E; [|by destruct Hheld].
    unfold Num.eqb. case_bool_decide as Hz; cbn [fst snd].
    + split; [split; [by eauto|done]|]. split; [done|]. split; [done|].
      repeat split; try done.
      intros s. cbn [positions set_positions]. rewrite lookup_insert.
      case_decide; [subst; by rewrite E|done].
    + split.
      { split; [done|]. intros (pos' & [= <-] & Hp). done. }
      split; [done|]. split; [done|]. repeat split; try done.
      intros s. cbn [positions set_positions set_risk]. rewrite lookup_insert.
      case_decide; [subst; by rewrite E|done].
  - cbn [fst snd]. split.
    { split; [done|]. intros (pos' & Hl & _). destruct Hheld. by eexists. }
    done.
Qed.

(** X23.  The preview and the execution of a limit buy disagree when the
    market is above the limit: for a positive quantity and a priced
    symbol the preview announces an execution at the limit price, while
    [execute_order] rejects the same order with "Limit price not met". *)
Theorem preview_promises_rejected_fill (fetch : string → string → Quote) (pt : t)
    (order : Order) (now : Time) (limit : Qc) :
  order_type order = "LIMIT" →
  order_side order = "BUY" →
  (0 < order_quantity order)%Z →
  o_limit_price order = Some limit →
  limit < quoted_price fetch order →
  quoted_price fetch order ≠ 0 →
  get_execution_preview fetch pt order
  = PreviewOk limit (order_quantity order) "BUY"
      (Num.of_Z (order_quantity order) * limit)
  ∧ execute_order fetch pt order now
    = (pt, Returned (REJECTED "Limit price not met")).
Proof.
  intros Ht Hs Hq Hl Hlt Hne. split.
  - unfold get_execution_preview. rewrite Ht, Hs, Hl.
    rewrite bool_decide_eq_false_2 by lia.
    unfold Num.eqb. rewrite bool_decide_eq_false_2 by done.
    cbn [String.eqb Ascii.eqb Bool.eqb andb default from_option id].
    by rewrite (proj2 (gtb_true _ _) Hlt).
  - unfold execute_order, order_limit. rewrite Ht, Hs, Hl.
    cbn [String.eqb Ascii.eqb Bool.eqb andb default from_option id].
    by rewrite (proj2 (leb_false _ _) Hlt).
Qed.

Lemma preview_promises_rejected_fill_witness :
  (order_type (limit_order "BUY" 10 (Num.of_Z 50)) = "LIMIT"
   ∧ order_side (limit_order "BUY" 10 (Num.of_Z 50)) = "BUY"
   ∧ (0 < order_quantity (limit_order "BUY" 10 (Num.of_Z 50)))%Z
   ∧ o_limit_price (limit_order "BUY" 10 (Num.of_Z 50)) = Some (Num.of_Z 50)
   ∧ Num.of_Z 50 < quoted_price (quote_at (Num.of_Z 52)) (limit_order "BUY" 10 (Num.of_Z 50))
   ∧ quoted_price (quote_at (Num.of_Z 52)) (limit_order "BUY" 10 (Num.of_Z 50)) ≠ 0)
  ∧ get_execution_preview (quote_at (Num.of_Z 52)) (fresh_trader (Num.of_Z 1000))
      (limit_order "BUY" 10 (Num.of_Z 50))
    = PreviewOk (Num.of_Z 50) 10 "BUY" (Num.of_Z 10 * Num.of_Z 50).
Proof.
  assert (H1 : order_type (limit_order "BUY" 10 (Num.of_Z 50)) = "LIMIT") by reflexivity.
  assert (H2 : order_side (limit_order "BUY" 10 (Num.of_Z 50)) = "BUY") by reflexivity.
  assert (H3 : (0 < order_quantity (limit_order "BUY" 10 (Num.of_Z 50)))%Z)
    by (vm_compute; reflexivity).
  assert (H4 : o_limit_price (limit_order "BUY" 10 (Num.of_Z 50)) = Some (Num.of_Z 50))
    by reflexivity.
  assert (H5 : Num.of_Z 50 < quoted_price (quote_at (Num.of_Z 52))
                               (limit_order "BUY" 10 (Num.of_Z 50))) by by_evaluation.
  assert (H6 : quoted_price (quote_at (Num.of_Z 52)) (limit_order "BUY" 10 (Num.of_Z 50)) ≠ 0)
    by refute_by_evaluation.
  split; [done|].
  exact (proj1 (preview_promises_rejected_fill (quote_at (Num.of_Z 52))
                  (fresh_trader (Num.of_Z 1000)) (limit_order "BUY" 10 (Num.of_Z 50))
                  0%Z (Num.of_Z 50) H1 H2 H3 H4 H5 H6)).
Defined.

End PaperFacts.

(** ** The backtest run *)

Section BacktestFacts.
Import Backtester.

Lemma entries_snoc (ts : list TradeRecord) (tr : TradeRecord) :
  entries (ts ++ [tr]) = (entries ts + (if is_entry tr then 1 else 0))%nat
  ∧ exits (ts ++ [tr]) = (exits ts + (if is_entry tr then 0 else 1))%nat.
Proof.
  unfold entries, exits. rewrite !list.filter_app, !length_app.
  destruct tr; simpl; split; reflexivity.
Qed.

Lemma mark_to_market_invariant (symbol : string) (bt : t) (date : Time) (p : Qc) :
  run_invariant symbol bt → run_invariant symbol (mark_to_market bt date p).
Proof. done. Qed.

Lemma _execute_exit_invariant (symbol : string) (bt : t) (p : Qc) (reason : string)
    (now : Time) :
  run_invariant symbol bt →
  run_invariant symbol (_execute_exit bt symbol p reason now)
  ∧ positions (_execute_exit bt symbol p reason now) !! symbol = None.
Proof.
  intros Hinv. unfold _execute_exit.
  destruct (positions bt !! symbol) as [pos|] eqn:E; [|done].
  destruct Hinv as (Honly & Hpair & Hcash). rewrite E in Hpair.
  split; [|cbn [positions with_account]; apply lookup_delete_eq].
  split; [|split]; cbn [positions trades cash initial_capital with_account].
  - intros s Hs. rewrite lookup_delete_ne by done. by apply Honly.
  - rewrite lookup_delete_eq.
    destruct (entries_snoc (trades bt)
                (EXIT symbol (shares pos) (p * (1 - slippage_bps bt))
                   (Num.of_Z (shares pos) * (p * (1 - slippage_bps bt))
                    - Num.of_Z (shares pos) * commission bt)
                   (Num.of_Z (shares pos) * (p * (1 - slippage_bps bt))
                    - Num.of_Z (shares pos) * commission bt
                    - Num.of_Z (shares pos) * entry_price pos)
                   ((Num.of_Z (shares pos) * (p * (1 - slippage_bps bt))
                     - Num.of_Z (shares pos) * commission bt
                     - Num.of_Z (shares pos) * entry_price pos)
                    / (Num.of_Z (shares pos) * entry_price pos) * Num.of_Z 100)
                   reason (current_date bt now))) as [He Hx].
    rewrite He, Hx, Hpair. simpl. lia.
  - rewrite fmap_app,
      (sum_snoc _ (Num.of_Z (shares pos) * (p * (1 - slippage_bps bt))
                   - Num.of_Z (shares pos) * commission bt)), Hcash.
    ring.
Qed.

Lemma _execute_entry_invariant (symbol : string) (bt : t) (p sz : Qc) (now : Time) :
  run_invariant symbol bt → positions bt !! symbol = None →
  run_invariant symbol (_execute_entry bt symbol p sz now).
Proof.
  intros (Honly & Hpair & Hcash) Hnone. unfold _execute_entry.
  destruct (Num.gtb _ _); [done|].
  split; [|split]; cbn [positions trades cash initial_capital with_account].
  - intros s Hs. rewrite lookup_insert_ne by done. by apply Honly.
  - rewrite lookup_insert_eq. rewrite Hnone in Hpair.
    destruct (entries_snoc (trades bt)
                (ENTRY symbol
                   (PositionSizer.calculate_shares (position_sizer bt)
                      (p * (1 + slippage_bps bt)) sz)
                   (p * (1 + slippage_bps bt))
                   (Num.of_Z (PositionSizer.calculate_shares (position_sizer bt)
                                (p * (1 + slippage_bps bt)) sz)
                    * (p * (1 + slippage_bps bt))
                    + Num.of_Z (PositionSizer.calculate_shares (position_sizer bt)
                                  (p * (1 + slippage_bps bt)) sz)
                      * commission bt)
                   (current_date bt now))) as [He Hx].
    rewrite He, Hx, Hpair. simpl. lia.
  - rewrite fmap_app,
      (sum_snoc _ (- (Num.of_Z (PositionSizer.calculate_shares (position_sizer bt)
                                  (p * (1 + slippage_bps bt)) sz)
                      * (p * (1 + slippage_bps bt))
                      + Num.of_Z (PositionSizer.calculate_shares (position_sizer bt)
                                    (p * (1 + slippage_bps bt)) sz)
                        * commission bt))), Hcash.
    ring.
Qed.

Lemma process_bar_invariant (strategy : Strategy) (symbol : string) (now : Time)
    (bt : t) (seen : list Bar) (bar : Bar) :
  run_invariant symbol bt →
  run_invariant symbol (process_bar strategy symbol now bt seen bar).
Proof.
  intros Hinv. unfold process_bar.
  set (bt1 := mark_to_market bt (bar_date bar) (bar_close bar)).
  assert (H1 : run_invariant symbol bt1) by by apply mark_to_market_invariant.
  set (bt2 := exit_step strategy symbol seen (bar_close bar) now bt1).
  assert (H2 : run_invariant symbol bt2).
  { subst bt2. unfold exit_step. destruct (positions bt1 !! symbol); [|done].
    destruct (exit _); [|done]. by apply _execute_exit_invariant. }
  unfold entry_step. destruct (positions bt2 !! symbol) eqn:E; [done|].
  destruct (enter _); [|done]. destruct (Num.gtb _ _); [|done].
  by apply _execute_entry_invariant.
Qed.

Lemma run_bars_invariant (strategy : Strategy) (symbol : string) (now : Time)
    (rest seen : list Bar) (bt : t) :
  run_invariant symbol bt →
  run_invariant symbol (run_bars strategy symbol now bt seen rest).
Proof.
  revert seen bt. induction rest as [|bar rest IH]; intros seen bt Hinv; [done|].
  simpl. apply IH. by apply process_bar_invariant.
Qed.

Lemma reset_invariant (symbol : string) (bt : t) :
  run_invariant symbol (reset bt).
Proof.
  split; [|split]; cbn [positions trades cash initial_capital reset].
  - intros s _. apply lookup_empty.
  - by rewrite lookup_empty.
  - change (Num.sum (trade_cash_flow <$> [])) with 0. ring.
Qed.

Lemma run_backtest_invariant (strategy : Strategy) (symbol : string) (df : list Bar)
    (now : Time) (bt : t) :
  run_invariant symbol (run_backtest strategy symbol df now bt)
  ∧ positions (run_backtest strategy symbol df now bt) !! symbol = None.
Proof.
  unfold run_backtest.
  pose proof (run_bars_invariant strategy symbol now df [] (reset bt)
                (reset_invariant symbol bt)) as Hinv.
  destruct (positions (run_bars strategy symbol now (reset bt) [] df) !! symbol)
    as [pos|] eqn:E; [|done].
  destruct (list.last df) as [final|] eqn:Hl.
  - by apply _execute_exit_invariant.
  - apply last_None in Hl. subst df. simpl in E. by rewrite lookup_empty in E.
Qed.

Lemma exit_step_frame (strategy : Strategy) (symbol : string) (seen : list Bar)
    (p : Qc) (now : Time) (bt : t) :
  equity_curve (exit_step strategy symbol seen p now bt) = equity_curve bt
  ∧ dates (exit_step strategy symbol seen p now bt) = dates bt
  ∧ drawdown_controller (exit_step strategy symbol seen p now bt) = drawdown_controller bt
  ∧ initial_capital (exit_step strategy symbol seen p now bt) = initial_capital bt.
Proof.
  unfold exit_step, _execute_exit.
  destruct (positions bt !! symbol); [|done]. by destruct (exit _).
Qed.

Lemma entry_step_frame (strategy : Strategy) (symbol : string) (seen : list Bar)
    (p : Qc) (now : Time) (bt : t) :
  equity_curve (entry_step strategy symbol seen p now bt) = equity_curve bt
  ∧ dates (entry_step strategy symbol seen p now bt) = dates bt
  ∧ drawdown_controller (entry_step strategy symbol seen p now bt) = drawdown_controller bt
  ∧ initial_capital (entry_step strategy symbol seen p now bt) = initial_capital bt.
Proof.
  unfold entry_step, _execute_entry.
  destruct (positions bt !! symbol); [done|]. destruct (enter _); [|done].
  destruct (Num.gtb _ 0); [|done]. by destruct (Num.gtb _ _).
Qed.

Lemma process_bar_curve (strategy : Strategy) (symbol : string) (now : Time)
    (bt : t) (seen : list Bar) (bar : Bar) :
  let after := process_bar strategy symbol now bt seen bar in
  let equity := _calculate_equity bt (bar_close bar) in
  equity_curve after = equity_curve bt ++ [equity]
  ∧ dates after = dates bt ++ [bar_date bar]
  ∧ DrawdownController.equity_curve (drawdown_controller after)
    = DrawdownController.equity_curve (drawdown_controller bt) ++ [equity]
  ∧ DrawdownController.kill_switch_active (drawdown_controller after)
    = DrawdownController.kill_switch_active (drawdown_controller bt)
  ∧ initial_capital after = initial_capital bt.
Proof.
  intros after equity. subst after. unfold process_bar.
  destruct (entry_step_frame strategy symbol seen (bar_close bar) now
              (exit_step strategy symbol seen (bar_close bar) now
                 (mark_to_market bt (bar_date bar) (bar_close bar))))
    as (E1 & E2 & E3 & E4).
  destruct (exit_step_frame strategy symbol seen (bar_close bar) now
              (mark_to_market bt (bar_date bar) (bar_close bar)))
    as (X1 & X2 & X3 & X4).
  rewrite E1, E2, E3, E4, X1, X2, X3, X4. done.
Qed.

Lemma run_bars_curve (strategy : Strategy) (symbol : string) (now : Time)
    (rest seen : list Bar) (bt : t) :
  ∃ marks,
    length marks = length rest
    ∧ equity_curve (run_bars strategy symbol now bt seen rest) = equity_curve bt ++ marks
    ∧ dates (run_bars strategy symbol now bt seen rest) = dates bt ++ (bar_date <$> rest)
    ∧ DrawdownController.equity_curve
        (drawdown_controller (run_bars strategy symbol now bt seen rest))
      = DrawdownController.equity_curve (drawdown_controller bt) ++ marks
    ∧ DrawdownController.kill_switch_active
        (drawdown_controller (run_bars strategy symbol now bt seen rest))
      = DrawdownController.kill_switch_active (drawdown_controller bt)
    ∧ initial_capital (run_bars strategy symbol now bt seen rest) = initial_capital bt.
Proof.
  revert seen bt. induction rest as [|bar rest IH]; intros seen bt.
  - exists []. simpl. by rewrite !app_nil_r.
  - simpl.
    destruct (IH (seen ++ [bar]) (process_bar strategy symbol now bt (seen ++ [bar]) bar))
      as (marks & Hlen & Hc & Hd & Hdc & Hk & Hi).
    destruct (process_bar_curve strategy symbol now bt (seen ++ [bar]) bar)
      as (P1 & P2 & P3 & P4 & P5).
    exists (_calculate_equity bt (bar_close bar) :: marks).
    rewrite Hc, Hd, Hdc, Hk, Hi, P1, P2, P3, P4, P5, <- !app_assoc.
    simpl. by rewrite Hlen.
Qed.

Lemma run_backtest_frame (strategy : Strategy) (symbol : string) (df : list Bar)
    (now : Time) (bt : t) :
  let bars := run_bars strategy symbol now (reset bt) [] df in
  let final := run_backtest strategy symbol df now bt in
  equity_curve final = equity_curve bars
  ∧ dates final = dates bars
  ∧ drawdown_controller final = drawdown_controller bars
  ∧ initial_capital final = initial_capital bars.
Proof.
  intros bars final. subst final. unfold run_backtest. fold bars.
  destruct (positions bars !! symbol) eqn:E; [|done].
  destruct (list.last df); [|done].
  unfold _execute_exit. by rewrite E.
Qed.

(** X24.  A backtest ends flat and its series are offset by one: after
    [run_backtest] no position is open in any symbol, there is one date
    per bar, and the equity curve has one point more than there are
    dates, the initial capital it starts with. *)
Theorem backtest_ends_flat (strategy : Strategy) (symbol : string) (df : list Bar)
    (now : Time) (bt : t) :
  let final := run_backtest strategy symbol df now bt in
  positions final = ∅
  ∧ dates final = bar_date <$> df
  ∧ length (equity_curve final) = S (length (dates final))
  ∧ head (equity_curve final) = Some (initial_capital bt).
Proof.
  intros final.
  destruct (run_backtest_invariant strategy symbol df now bt) as [(Honly & _ & _) Hnone].
  destruct (run_backtest_frame strategy symbol df now bt) as (F1 & F2 & _ & _).
  destruct (run_bars_curve strategy symbol now df [] (reset bt))
    as (marks & Hlen & Hc & Hd & _ & _ & _).
  fold final in Honly, Hnone, F1, F2. rewrite F1, F2, Hc, Hd.
  cbn [equity_curve dates reset]. split; [|split; [done|split; [|done]]].
  - apply map_eq. intros s. rewrite lookup_empty.
    destruct (decide (s = symbol)) as [->|Hs]; [done|by apply Honly].
  - simpl. by rewrite Hlen, length_fmap.
Qed.

(** X20.  Neither simulation engine ever fires (or clears) the kill
    switch: whatever the events of a paper-trading session and whatever
    the bars and the strategy of a backtest, the kill-switch flag of the
    engine's drawdown controller is afterwards what it was before. *)
Theorem simulations_never_touch_kill_switch
    (fetch : string → string → PaperTrader.Quote) (pt : PaperTrader.t)
    (evs : list PaperTrader.event) (strategy : Strategy) (symbol : string)
    (df : list Bar) (now : Time) (bt : t) :
  DrawdownController.is_kill_switch_active
    (PaperTrader.drawdown_controller (PaperTrader.run fetch pt evs))
  = DrawdownController.is_kill_switch_active (PaperTrader.drawdown_controller pt)
  ∧ DrawdownController.is_kill_switch_active
      (drawdown_controller (run_backtest strategy symbol df now bt))
    = DrawdownController.is_kill_switch_active (drawdown_controller bt).
Proof.
  split; [apply paper_run_kill_switch|].
  destruct (run_backtest_frame strategy symbol df now bt) as (_ & _ & F3 & _).
  destruct (run_bars_curve strategy symbol now df [] (reset bt))
    as (marks & _ & _ & _ & _ & Hk & _).
  unfold DrawdownController.is_kill_switch_active. by rewrite F3, Hk.
Qed.

(** X19.  A backtest resets the account but not the drawdown
    controller: the run appends its per-bar equities to whatever curve
    the controller already held, so the drawdown of a second run on the
    same object is measured against the history of the first. *)
Theorem backtest_keeps_drawdown_history (strategy : Strategy) (symbol : string)
    (df : list Bar) (now : Time) (bt : t) :
  let final := run_backtest strategy symbol df now bt in
  ∃ marks,
    length marks = length df
    ∧ equity_curve final = initial_capital bt :: marks
    ∧ DrawdownController.equity_curve (drawdown_controller final)
      = DrawdownController.equity_curve (drawdown_controller bt) ++ marks.
Proof.
  intros final.
  destruct (run_backtest_frame strategy symbol df now bt) as (F1 & _ & F3 & _).
  destruct (run_bars_curve strategy symbol now df [] (reset bt))
    as (marks & Hlen & Hc & _ & Hdc & _ & _).
  exists marks. fold final in F1, F3. rewrite F1, F3, Hc, Hdc. done.
Qed.

Lemma log_counts (ts : list TradeRecord) :
  length ts = (entries ts + exits ts)%nat
  ∧ (length (filter (λ tr, (0 < trade_pnl tr)%Qc) ts) ≤ exits ts)%nat.
Proof.
  unfold entries, exits. induction ts as [|tr ts [IH1 IH2]]; [done|].
  destruct tr.
  - rewrite (filter_cons_True (λ tr, is_entry tr = true)) by done.
    rewrite (filter_cons_False (λ tr, is_entry tr = false)) by done.
    rewrite (filter_cons_False (λ tr, 0 < trade_pnl tr)).
    + simpl. lia.
    + simpl. refute_by_evaluation.
  - rewrite (filter_cons_False (λ tr, is_entry tr = true)) by done.
    rewrite (filter_cons_True (λ tr, is_entry tr = false)) by done.
    split; [simpl; lia|].
    rewrite (filter_cons (λ tr, 0 < trade_pnl tr)).
    destruct (decide _); simpl; lia.
Qed.

Lemma of_Z_zero : Num.of_Z 0 = 0.
Proof. by_evaluation. Qed.

Lemma of_Z_lt (a b : Z) : (a < b)%Z → Num.of_Z a < Num.of_Z b.
Proof.
  intros H. unfold Qclt, Num.of_Z, Qc_of_Z. simpl. by rewrite <- Zlt_Qlt.
Qed.

Lemma of_Z_mul (a b : Z) : Num.of_Z (a * b) = Num.of_Z a * Num.of_Z b.
Proof.
  apply Qc_is_canon. simpl. rewrite Qred_correct. by rewrite inject_Z_mult.
Qed.

Lemma ratio_at_most_half (w n : Z) :
  (0 < n)%Z → (2 * w ≤ n)%Z → Num.of_Z w / Num.of_Z n ≤ Num.dec 1 2.
Proof.
  intros Hn Hw.
  assert (Hpos : 0 < Num.of_Z n) by (rewrite <- of_Z_zero; by apply of_Z_lt).
  assert (Hne : Num.of_Z n ≠ 0) by (intros E; by apply Qclt_not_eq in Hpos).
  apply Qcmult_lt_0_le_reg_r with (Num.of_Z n); [done|].
  assert (E1 : Num.of_Z w / Num.of_Z n * Num.of_Z n = Num.of_Z w).
  { rewrite Qcmult_comm. by apply Qcmult_div_r. }
  rewrite E1.
  assert (Hle : Num.of_Z 2 * Num.of_Z w ≤ Num.of_Z n)
    by (rewrite <- of_Z_mul; by apply of_Z_le).
  assert (Hhalf : 0 ≤ Num.dec 1 2) by by_evaluation.
  pose proof (Qcmult_le_compat_r _ _ _ Hle Hhalf) as H.
  assert (E2 : Num.of_Z 2 * Num.of_Z w * Num.dec 1 2 = Num.of_Z w).
  { assert (Ec : Num.of_Z 2 * Num.dec 1 2 = 1) by by_evaluation.
    rewrite (Qcmult_comm (Num.of_Z 2)), <- Qcmult_assoc, Ec. ring. }
  rewrite E2 in H. by rewrite (Qcmult_comm (Num.dec 1 2)).
Qed.

Lemma backtest_ends_flat_aux (strategy : Strategy) (symbol : string) (df : list Bar)
    (now : Time) (bt : t) :
  let final := run_backtest strategy symbol df now bt in
  length (equity_curve final) = S (length (dates final))
  ∧ dates final = bar_date <$> df.
Proof.
  intros final.
  destruct (run_backtest_frame strategy symbol df now bt) as (F1 & F2 & _ & _).
  destruct (run_bars_curve strategy symbol now df [] (reset bt))
    as (marks & Hlen & Hc & Hd & _ & _ & _).
  fold final in F1, F2. rewrite F1, F2, Hc, Hd.
  cbn [equity_curve dates reset]. simpl. by rewrite Hlen, length_fmap.
Qed.

(** X25.  The trade log of a backtest pairs every ENTRY with an EXIT, so
    the statistics computed over the whole log count every round trip
    twice: [num_trades] is twice the number of closed trades, and since
    an ENTRY record has no pnl the reported [win_rate] never exceeds one
    half, even when every trade wins.  The metrics are the empty
    dictionary exactly when the history has no bar. *)
Theorem win_rate_counts_entries (strategy : Strategy) (symbol : string)
    (df : list Bar) (now : Time) (bt : t) :
  let final := run_backtest strategy symbol df now bt in
  entries (trades final) = exits (trades final)
  ∧ num_trades final = (2 * exits (trades final))%nat
  ∧ (length (winning_trades final) ≤ exits (trades final))%nat
  ∧ win_rate final ≤ Num.dec 1 2
  ∧ (∀ m, _calculate_metrics final = Some m →
       m_num_trades m = (2 * exits (trades final))%nat
       ∧ m_win_rate m ≤ Num.dec 1 2)
  ∧ (_calculate_metrics final = None ↔ df = []).
Proof.
  intros final.
  assert (Hguard : _calculate_metrics final = None ↔ df = []).
  { unfold _calculate_metrics.
    destruct (backtest_ends_flat_aux strategy symbol df now bt) as [Hlen Hd].
    fold final in Hlen, Hd. case_bool_decide as Hb.
    - split; [|done]. intros _. rewrite Hlen, Hd, length_fmap in Hb.
      destruct df; [done|simpl in Hb; lia].
    - split; [done|]. intros ->. destruct Hb. rewrite Hlen, Hd. simpl. lia. }
  cut (entries (trades final) = exits (trades final)
       ∧ num_trades final = (2 * exits (trades final))%nat
       ∧ (length (winning_trades final) ≤ exits (trades final))%nat
       ∧ win_rate final ≤ Num.dec 1 2).
  { intros (H1 & H2 & H3 & H4). repeat split; try done.
    - unfold _calculate_metrics in H. case_bool_decide; [done|].
      injection H as <-. done.
    - unfold _calculate_metrics in H. case_bool_decide; [done|].
      injection H as <-. done.
    - by apply Hguard.
    - by apply Hguard. }
  clear Hguard.
  destruct (run_backtest_invariant strategy symbol df now bt) as [(_ & Hpair & _) Hnone].
  fold final in Hpair, Hnone. rewrite Hnone in Hpair.
  destruct (log_counts (trades final)) as [Hlen Hwin].
  assert (Hbal : entries (trades final) = exits (trades final)) by lia.
  assert (Hnum : num_trades final = (2 * exits (trades final))%nat)
    by (unfold num_trades; lia).
  split; [done|]. split; [done|]. split; [done|].
  unfold win_rate, winning_trades, num_trades in *. clearbody final.
  destruct (trades final) as [|tr ts]; [by_evaluation|].
  apply ratio_at_most_half; [simpl; lia|lia].
Qed.

(** X26.  The cash of a finished backtest is the initial capital, minus
    the total cost of every logged ENTRY, plus the net proceeds of every
    logged EXIT; every cash movement of the run is in the trade log. *)
Theorem backtest_cash_matches_log (strategy : Strategy) (symbol : string)
    (df : list Bar) (now : Time) (bt : t) :
  let final := run_backtest strategy symbol df now bt in
  cash final = initial_capital bt + Num.sum (trade_cash_flow <$> trades final).
Proof.
  intros final.
  destruct (run_backtest_invariant strategy symbol df now bt) as [(_ & _ & Hcash) _].
  destruct (run_backtest_frame strategy symbol df now bt) as (_ & _ & _ & F4).
  destruct (run_bars_curve strategy symbol now df [] (reset bt))
    as (marks & _ & _ & _ & _ & _ & Hi).
  fold final in Hcash, F4. rewrite Hcash, F4, Hi. done.
Qed.

Lemma run_bars_app (strategy : Strategy) (symbol : string) (now : Time)
    (a b seen : list Bar) (bt : t) :
  run_bars strategy symbol now bt seen (a ++ b)
  = run_bars strategy symbol now (run_bars strategy symbol now bt seen a) (seen ++ a) b.
Proof.
  revert seen bt. induction a as [|bar a IH]; intros seen bt.
  - simpl. by rewrite app_nil_r.
  - simpl. rewrite IH. by rewrite <- app_assoc.
Qed.

(** X27.  The [final_equity] a backtest reports is the account marked at
    the close of the last bar before that bar's own trades: it is
    computed from the state the earlier bars left, and neither an exit
    or entry on the last bar nor the forced close at the end of the run
    changes it. *)
Theorem final_equity_precedes_last_trades (strategy : Strategy) (symbol : string)
    (earlier : list Bar) (last_bar : Bar) (now : Time) (bt : t) :
  final_equity (run_backtest strategy symbol (earlier ++ [last_bar]) now bt)
  = _calculate_equity (run_bars strategy symbol now (reset bt) [] earlier)
      (bar_close last_bar).
Proof.
  destruct (run_backtest_frame strategy symbol (earlier ++ [last_bar]) now bt)
    as (F1 & _ & _ & _).
  unfold final_equity. rewrite F1, run_bars_app. simpl.
  destruct (process_bar_curve strategy symbol now
              (run_bars strategy symbol now (reset bt) [] earlier)
              (earlier ++ [last_bar]) last_bar) as (P1 & _).
  rewrite P1, last_snoc. done.
Qed.

End BacktestFacts.

(** ** The quorum rule and the risk layer *)

Section QuorumFacts.
Import BaseStrategy.

(** X15.  Under the quorum rule the risk layer has no veto: when no
    regime is required and the fundamental, intermarket and technical
    layers pass, the decision is to enter, with the full baseline size,
    whatever the drawdown check and the exposure limits say. *)
Theorem quorum_overrides_risk (s : t) (symbol : string) (df : list Bar)
    (direction : string) :
  require_all_layers s = false →
  check_fundamentals s symbol direction = true →
  check_intermarket s symbol direction = true →
  signal (check_technical_entry (collaborators s) df) = Some true →
  let d := should_enter s symbol df direction None in
  enter d = true
  ∧ risk (checks d)
    = check_risk_rules s symbol
        (PositionSizer.position_size
           (PositionSizer.calculate_position_size (position_sizer s)
              (ExposureManager.get_account_value (exposure_manager s))
              (Some (Num.dec 1 100)) (Num.dec 5 100)))
  ∧ position_size d
    = PositionSizer.position_size
        (PositionSizer.calculate_position_size (position_sizer s)
           (ExposureManager.get_account_value (exposure_manager s))
           (Some (Num.dec 1 100)) (Num.dec 5 100)).
Proof.
  intros Hq Hf Hi Ht d.
  assert (He : enter d = true).
  { subst d. unfold should_enter. cbn [enter]. rewrite Hq, Hf, Hi, Ht.
    cbn [regime_required default from_option id].
    unfold passed_count, values.
    cbn [regime fundamentals sentiment intermarket technical risk].
    destruct (check_sentiment s symbol direction), (check_risk_rules _ _ _); reflexivity. }
  split; [exact He|]. split; [reflexivity|].
  destruct (should_enter_size s symbol df direction None) as [Hsz _].
  fold d in Hsz. by rewrite Hsz, He.
Qed.

Lemma quorum_overrides_risk_witness :
  (require_all_layers (quorum_strategy true) = false
   ∧ check_fundamentals (quorum_strategy true) "AAPL" "LONG" = true
   ∧ check_intermarket (quorum_strategy true) "AAPL" "LONG" = true
   ∧ signal (check_technical_entry (collaborators (quorum_strategy true)) []) = Some true)
  ∧ enter (should_enter (quorum_strategy true) "AAPL" [] "LONG" None) = true.
Proof.
  split; [by repeat split|].
  exact (proj1 (quorum_overrides_risk (quorum_strategy true) "AAPL" [] "LONG"
                  eq_refl eq_refl eq_refl eq_refl)).
Defined.

Example quorum_entry_with_failed_risk :
  risk (checks (should_enter (quorum_strategy true) "AAPL" [] "LONG" None)) = false.
Proof. vm_compute. reflexivity. Qed.

End QuorumFacts.
